(** * webctl adblock core: parser, matcher, cosmetic and scriptlet handlers

    A shallow embedding of [webctl/daemon/adblock] ([parser.py], [matcher.py],
    [cosmetic.py], [scriptlets.py], [resources.py], [engine.py]) and the
    properties its specification states about it.

    Conventions of the embedding:
    - a Python [str] is a [string]; only ASCII text is modelled, so
      [str.lower] maps [A-Z] to [a-z], and [\w] is [[A-Za-z0-9_]];
    - a Python [set] is a [gset], a [dict] a [gmap], a [list] a [list];
    - [None] is [None]; an index that Python reports as [-1] is [None];
    - a record mutated in place is threaded through as a value;
    - code outside the repository ([urllib.parse.urlparse], the [re] engine on
      a user-written regular expression) is a parameter of the section that
      uses it. *)

From Stdlib Require Import Ascii String.
From stdpp Require Import base option list gmap strings.

Local Open Scope nat_scope.

(** ** Python string primitives *)

Module Str.

Definition code (c : ascii) : nat := nat_of_ascii c.

Definition between (lo hi : nat) (c : ascii) : bool :=
  (lo <=? code c) && (code c <=? hi).

Definition is_upper (c : ascii) : bool := between 65 90 c.
Definition is_lower (c : ascii) : bool := between 97 122 c.
Definition is_digit (c : ascii) : bool := between 48 57 c.

(** [\w] of the [re] module, on ASCII. *)
Definition is_word (c : ascii) : bool :=
  is_upper c || is_lower c || is_digit c || Ascii.eqb c "_".

(** [str.isspace], on ASCII: tab to carriage return, the four separators
    [0x1c]-[0x1f], and the blank. *)
Definition is_space (c : ascii) : bool := between 9 13 c || between 28 32 c.

Definition lower_char (c : ascii) : ascii :=
  if is_upper c then ascii_of_nat (code c + 32) else c.

Fixpoint lower (s : string) : string :=
  match s with
  | EmptyString => EmptyString
  | String c s' => String (lower_char c) (lower s')
  end.

Definition len (s : string) : nat := String.length s.

Definition is_empty (s : string) : bool :=
  match s with EmptyString => true | _ => false end.

(** Truthiness of a [str]. *)
Definition truthy (s : string) : bool := negb (is_empty s).

(** [s[n:]] and [s[:n]] for a non-negative [n]. *)
Fixpoint drop (n : nat) (s : string) : string :=
  match n, s with
  | 0, _ => s
  | S n', String _ s' => drop n' s'
  | S _, EmptyString => EmptyString
  end.

Fixpoint take (n : nat) (s : string) : string :=
  match n, s with
  | S n', String c s' => String c (take n' s')
  | _, _ => EmptyString
  end.

(** [s[:-1]]. *)
Fixpoint drop_last (s : string) : string :=
  match s with
  | EmptyString => EmptyString
  | String c EmptyString => EmptyString
  | String c s' => String c (drop_last s')
  end.

Fixpoint startswith (p s : string) : bool :=
  match p, s with
  | EmptyString, _ => true
  | String a p', String b s' => Ascii.eqb a b && startswith p' s'
  | String _ _, EmptyString => false
  end.

Definition endswith (p s : string) : bool :=
  (len p <=? len s) && String.eqb (drop (len s - len p) s) p.

(** [s.find(sub)]. *)
Fixpoint find (sub s : string) : option nat :=
  if startswith sub s then Some 0
  else match s with
       | EmptyString => None
       | String _ s' => S <$> find sub s'
       end.

(** [sub in s]. *)
Definition contains (sub s : string) : bool :=
  match find sub s with Some _ => true | None => false end.

Fixpoint has_char (c : ascii) (s : string) : bool :=
  match s with
  | EmptyString => false
  | String d s' => Ascii.eqb d c || has_char c s'
  end.

(** [s.find(c, start)] for a one-character [c] and [0 <= start]. *)
Fixpoint find_char_from (c : ascii) (s : string) (start : nat) : option nat :=
  match start, s with
  | 0, EmptyString => None
  | 0, String d s' =>
      if Ascii.eqb d c then Some 0 else S <$> find_char_from c s' 0
  | S _, EmptyString => None
  | S n, String _ s' => S <$> find_char_from c s' n
  end.

(** [s.rfind(c)] for a one-character [c]. *)
Fixpoint rfind_char (c : ascii) (s : string) : option nat :=
  match s with
  | EmptyString => None
  | String d s' =>
      match rfind_char c s' with
      | Some i => Some (S i)
      | None => if Ascii.eqb d c then Some 0 else None
      end
  end.

(** [s.count(c)] for a one-character [c]. *)
Fixpoint count_char (c : ascii) (s : string) : nat :=
  match s with
  | EmptyString => 0
  | String d s' => (if Ascii.eqb d c then 1 else 0) + count_char c s'
  end.

(** [s.split(c)] for a one-character separator: never the empty list. *)
Fixpoint split (c : ascii) (s : string) : list string :=
  match s with
  | EmptyString => [EmptyString]
  | String d s' =>
      if Ascii.eqb d c then EmptyString :: split c s'
      else match split c s' with
           | [] => [String d EmptyString]
           | p :: ps => String d p :: ps
           end
  end.

(** [s.split(sep, 1)]: at most one cut, at the first occurrence. *)
Definition split_once (sep s : string) : list string :=
  match find sep s with
  | Some i => [take i s; drop (i + len sep) s]
  | None => [s]
  end.

(** [sep.join(parts)]. *)
Fixpoint join (sep : string) (parts : list string) : string :=
  match parts with
  | [] => EmptyString
  | [p] => p
  | p :: ps => p +:+ sep +:+ join sep ps
  end.

Fixpoint lstrip (s : string) : string :=
  match s with
  | String c s' => if is_space c then lstrip s' else s
  | EmptyString => EmptyString
  end.

Fixpoint rstrip (s : string) : string :=
  match s with
  | EmptyString => EmptyString
  | String c s' =>
      match rstrip s' with
      | EmptyString => if is_space c then EmptyString else String c EmptyString
      | r => String c r
      end
  end.

Definition strip (s : string) : string := rstrip (lstrip s).

(** The line boundaries of [str.splitlines], on ASCII: line feed, vertical
    tab, form feed, carriage return and the separators [0x1c]-[0x1e]. *)
Definition is_linebreak (c : ascii) : bool := between 10 13 c || between 28 30 c.

(** [s.splitlines()]: a carriage return followed by a line feed is one
    boundary, and a boundary at the very end opens no further line. *)
Fixpoint splitlines (s : string) : list string :=
  match s with
  | EmptyString => []
  | String c s' =>
      if is_linebreak c then
        EmptyString ::
          (if code c =? 13 then
             match s' with
             | String d s'' => if code d =? 10 then splitlines s''
                               else splitlines s'
             | EmptyString => splitlines s'
             end
           else splitlines s')
      else
        match splitlines s' with
        | [] => [String c EmptyString]
        | l :: ls => String c l :: ls
        end
  end.

End Str.

(** ** parser.py *)

Module Parser.

Inductive RequestType :=
| SCRIPT | IMAGE | STYLESHEET | FONT | MEDIA | DOCUMENT | SUBDOCUMENT
| XMLHTTPREQUEST | WEBSOCKET | OTHER.

#[global] Instance RequestType_eq_dec : EqDecision RequestType.
Proof. solve_decision. Defined.

Definition RequestType_to_nat (t : RequestType) : nat :=
  match t with
  | SCRIPT => 0 | IMAGE => 1 | STYLESHEET => 2 | FONT => 3 | MEDIA => 4
  | DOCUMENT => 5 | SUBDOCUMENT => 6 | XMLHTTPREQUEST => 7 | WEBSOCKET => 8
  | OTHER => 9
  end.

Definition RequestType_of_nat (n : nat) : option RequestType :=
  match n with
  | 0 => Some SCRIPT | 1 => Some IMAGE | 2 => Some STYLESHEET | 3 => Some FONT
  | 4 => Some MEDIA | 5 => Some DOCUMENT | 6 => Some SUBDOCUMENT
  | 7 => Some XMLHTTPREQUEST | 8 => Some WEBSOCKET | 9 => Some OTHER
  | _ => None
  end.

#[global] Program Instance RequestType_countable : Countable RequestType :=
  inj_countable RequestType_to_nat RequestType_of_nat _.
Next Obligation. by intros []. Qed.

(** [REQUEST_TYPE_MAP.get(modifier)]. *)
Definition REQUEST_TYPE_MAP (modifier : string) : option RequestType :=
  if String.eqb modifier "script" then Some SCRIPT
  else if String.eqb modifier "image" then Some IMAGE
  else if String.eqb modifier "stylesheet" then Some STYLESHEET
  else if String.eqb modifier "font" then Some FONT
  else if String.eqb modifier "media" then Some MEDIA
  else if String.eqb modifier "document" then Some DOCUMENT
  else if String.eqb modifier "subdocument" then Some SUBDOCUMENT
  else if String.eqb modifier "xmlhttprequest" then Some XMLHTTPREQUEST
  else if String.eqb modifier "xhr" then Some XMLHTTPREQUEST
  else if String.eqb modifier "websocket" then Some WEBSOCKET
  else if String.eqb modifier "other" then Some OTHER
  else if String.eqb modifier "object" then Some OTHER
  else if String.eqb modifier "ping" then Some OTHER
  else None.

(** The [_regex] slot of the dataclass only caches [_pattern_to_regex
    pattern is_regex]; both fields are never reassigned, so the cache is
    not part of the value. *)
Record NetworkFilter := {
  raw : string;
  pattern : string;
  is_exception : bool;
  is_hostname_anchor : bool;
  is_left_anchor : bool;
  is_right_anchor : bool;
  is_plain : bool;
  is_regex : bool;
  hostname : option string;
  third_party : option bool;
  request_types : gset RequestType;
  excluded_types : gset RequestType;
  domains : gset string;
  excluded_domains : gset string;
  redirect : option string
}.

Record CosmeticFilter := {
  c_raw : string;
  selector : string;
  c_is_exception : bool;
  c_domains : gset string;
  c_excluded_domains : gset string
}.

Record ScriptletFilter := {
  s_raw : string;
  scriptlet_name : string;
  args : list string;
  s_domains : gset string;
  s_excluded_domains : gset string
}.

(** *** [_pattern_to_regex]

    The text that the loop appends for one pattern character is one of five
    fragments; [Rx] names them and [rx_text] gives the appended text. *)
Inductive Rx :=
| RxAny                (* [.*] *)
| RxSep                (* [(?:[^\w\-.]|$)] *)
| RxBol                (* [^] *)
| RxEol                (* [$] *)
| RxLit (c : ascii).   (* the character itself, escaped when special *)

Definition needs_escape (c : ascii) : bool :=
  Str.has_char c "\.+?{}[]()$".

Definition rx_text (r : Rx) : string :=
  match r with
  | RxAny => ".*"
  | RxSep => "(?:[^\w\-.]|$)"
  | RxBol => "^"
  | RxEol => "$"
  | RxLit c =>
      if Ascii.eqb c "|" then "\|"
      else if needs_escape c then String "\" (String c EmptyString)
      else String c EmptyString
  end.

(** The [while i < len(pattern)] loop, from index [i] on the rest [s];
    [n] is [len(pattern)]. *)
Fixpoint escape_from (n i : nat) (s : string) : list Rx :=
  match s with
  | EmptyString => []
  | String c s' =>
      (if Ascii.eqb c "*" then RxAny
       else if Ascii.eqb c "^" then RxSep
       else if Ascii.eqb c "|" then
         if i =? 0 then RxBol
         else if i =? n - 1 then RxEol
         else RxLit c
       else RxLit c) :: escape_from n (S i) s'
  end.

Inductive Compiled :=
| CompiledRaw (source : string)      (* [re.compile(pattern, IGNORECASE)] *)
| CompiledRx (fragments : list Rx).  (* [re.compile(escaped, IGNORECASE)] *)

Definition _pattern_to_regex (pattern : string) (is_regex : bool) : Compiled :=
  if is_regex then
    CompiledRaw
      (if Str.startswith "/" pattern && Str.endswith "/" pattern
       then Str.drop_last (Str.drop 1 pattern) else pattern)
  else CompiledRx (escape_from (Str.len pattern) 0 pattern).

Definition get_regex (f : NetworkFilter) : Compiled :=
  _pattern_to_regex (pattern f) (is_regex f).

(** *** [_extract_hostname_from_pattern] *)

Definition ends_hostname (c : ascii) : bool :=
  Ascii.eqb c "^" || Ascii.eqb c "/" || Ascii.eqb c "*" || Ascii.eqb c "?"
  || Ascii.eqb c "$".

(** [pattern[:end]] where [end] is the first index of a character of
    [("^", "/", "*", "?", "$")], or [len(pattern)]. *)
Fixpoint hostname_prefix (pattern : string) : string :=
  match pattern with
  | EmptyString => EmptyString
  | String c s' => if ends_hostname c then EmptyString
                   else String c (hostname_prefix s')
  end.

Definition _extract_hostname_from_pattern (pattern : string) : option string :=
  if Str.is_empty pattern then None
  else
    let hostname := hostname_prefix pattern in
    if Str.truthy hostname && Str.has_char "." hostname
       && negb (Str.startswith "." hostname)
    then Some (Str.lower hostname)
    else None.

(** *** [_parse_domains] *)

Definition add_domain (acc : gset string * gset string) (domain : string)
  : gset string * gset string :=
  let domain := Str.lower (Str.strip domain) in
  if Str.is_empty domain then acc
  else if Str.startswith "~" domain
       then (acc.1, {[ Str.drop 1 domain ]} ∪ acc.2)
       else ({[ domain ]} ∪ acc.1, acc.2).

(** The domain loop shared by [_parse_domains] (separator ["|"]) and the
    cosmetic and scriptlet parsers (separator [","]). *)
Definition parse_domain_list (sep : ascii) (domain_str : string)
  : gset string * gset string :=
  foldl add_domain (∅, ∅) (Str.split sep domain_str).

Definition _parse_domains (domain_str : string) : gset string * gset string :=
  parse_domain_list "|" domain_str.

(** *** [_parse_modifiers] *)

Definition set_domains (f : NetworkFilter) (inc exc : gset string) :=
  {| raw := raw f; pattern := pattern f; is_exception := is_exception f;
     is_hostname_anchor := is_hostname_anchor f;
     is_left_anchor := is_left_anchor f; is_right_anchor := is_right_anchor f;
     is_plain := is_plain f; is_regex := is_regex f; hostname := hostname f;
     third_party := third_party f; request_types := request_types f;
     excluded_types := excluded_types f;
     domains := domains f ∪ inc; excluded_domains := excluded_domains f ∪ exc;
     redirect := redirect f |}.

Definition set_redirect (f : NetworkFilter) (r : string) :=
  {| raw := raw f; pattern := pattern f; is_exception := is_exception f;
     is_hostname_anchor := is_hostname_anchor f;
     is_left_anchor := is_left_anchor f; is_right_anchor := is_right_anchor f;
     is_plain := is_plain f; is_regex := is_regex f; hostname := hostname f;
     third_party := third_party f; request_types := request_types f;
     excluded_types := excluded_types f;
     domains := domains f; excluded_domains := excluded_domains f;
     redirect := Some r |}.

Definition set_third_party (f : NetworkFilter) (b : bool) :=
  {| raw := raw f; pattern := pattern f; is_exception := is_exception f;
     is_hostname_anchor := is_hostname_anchor f;
     is_left_anchor := is_left_anchor f; is_right_anchor := is_right_anchor f;
     is_plain := is_plain f; is_regex := is_regex f; hostname := hostname f;
     third_party := Some b; request_types := request_types f;
     excluded_types := excluded_types f;
     domains := domains f; excluded_domains := excluded_domains f;
     redirect := redirect f |}.

Definition add_request_type (f : NetworkFilter) (t : RequestType) :=
  {| raw := raw f; pattern := pattern f; is_exception := is_exception f;
     is_hostname_anchor := is_hostname_anchor f;
     is_left_anchor := is_left_anchor f; is_right_anchor := is_right_anchor f;
     is_plain := is_plain f; is_regex := is_regex f; hostname := hostname f;
     third_party := third_party f; request_types := {[ t ]} ∪ request_types f;
     excluded_types := excluded_types f;
     domains := domains f; excluded_domains := excluded_domains f;
     redirect := redirect f |}.

Definition add_excluded_type (f : NetworkFilter) (t : RequestType) :=
  {| raw := raw f; pattern := pattern f; is_exception := is_exception f;
     is_hostname_anchor := is_hostname_anchor f;
     is_left_anchor := is_left_anchor f; is_right_anchor := is_right_anchor f;
     is_plain := is_plain f; is_regex := is_regex f; hostname := hostname f;
     third_party := third_party f; request_types := request_types f;
     excluded_types := {[ t ]} ∪ excluded_types f;
     domains := domains f; excluded_domains := excluded_domains f;
     redirect := redirect f |}.

(** One turn of the [for modifier in modifier_str.split(",")] loop. *)
Definition parse_modifier (filter_obj : NetworkFilter) (modifier : string)
  : NetworkFilter :=
  let modifier := Str.lower (Str.strip modifier) in
  if Str.is_empty modifier then filter_obj
  else
    let negated := Str.startswith "~" modifier in
    let modifier := if negated then Str.drop 1 modifier else modifier in
    if Str.startswith "domain=" modifier then
      let '(inc, exc) := _parse_domains (Str.drop 7 modifier) in
      set_domains filter_obj inc exc
    else if Str.startswith "redirect=" modifier then
      set_redirect filter_obj (Str.drop 9 modifier)
    else if Str.startswith "redirect-rule=" modifier then
      set_redirect filter_obj (Str.drop 14 modifier)
    else if String.eqb modifier "third-party" || String.eqb modifier "3p" then
      set_third_party filter_obj (negb negated)
    else if String.eqb modifier "first-party" || String.eqb modifier "1p" then
      set_third_party filter_obj negated
    else
      match REQUEST_TYPE_MAP modifier with
      | Some req_type =>
          if negated then add_excluded_type filter_obj req_type
          else add_request_type filter_obj req_type
      | None => filter_obj
      end.

Definition _parse_modifiers (modifier_str : string) (filter_obj : NetworkFilter)
  : NetworkFilter :=
  foldl parse_modifier filter_obj (Str.split "," modifier_str).

(** *** [parse_network_filter] *)

(** The first block of [parse_network_filter]: the line without its ["@@"]. *)
Definition after_exception (line : string) : string :=
  if Str.startswith "@@" line then Str.drop 2 line else line.

(** [modifier_pos], when the line has a ["$"]. [rfind] cannot miss in the
    first branch, where the line starts with ["/"]; Python would turn a
    start of [-1] into the last index. *)
Definition modifier_pos (line : string) : option nat :=
  if Str.startswith "/" line && (2 <=? Str.count_char "/" line) then
    let last_slash :=
      match Str.rfind_char "/" line with
      | Some i => i
      | None => Str.len line - 1
      end in
    Str.find_char_from "$" line last_slash
  else Str.rfind_char "$" line.

(** [(modifier_str, line)] after the modifier block. *)
Definition split_modifiers (line : string) : string * string :=
  if Str.contains "$" line then
    match modifier_pos line with
    | Some p => (Str.drop (p + 1) line, Str.take p line)
    | None => (EmptyString, line)
    end
  else (EmptyString, line).

Definition parse_network_filter (line : string) : option NetworkFilter :=
  let is_exception := Str.startswith "@@" line in
  let line := after_exception line in
  let '(modifier_str, line) := split_modifiers line in
  if Str.is_empty line then None
  else
    let is_hostname_anchor := Str.startswith "||" line in
    let line := if is_hostname_anchor then Str.drop 2 line else line in
    let is_left_anchor := negb is_hostname_anchor && Str.startswith "|" line in
    let line := if is_left_anchor then Str.drop 1 line else line in
    let is_right_anchor := Str.endswith "|" line in
    let line := if is_right_anchor then Str.drop_last line else line in
    let is_regex :=
      Str.startswith "/" line && Str.endswith "/" line && (2 <? Str.len line) in
    let is_plain :=
      negb is_regex && negb (Str.contains "*" line)
      && negb (Str.contains "^" line) in
    let hostname :=
      if is_hostname_anchor then _extract_hostname_from_pattern line
      else None in
    let filter_obj :=
      {| raw := line; pattern := line; is_exception := is_exception;
         is_hostname_anchor := is_hostname_anchor;
         is_left_anchor := is_left_anchor; is_right_anchor := is_right_anchor;
         is_plain := is_plain; is_regex := is_regex; hostname := hostname;
         third_party := None; request_types := ∅; excluded_types := ∅;
         domains := ∅; excluded_domains := ∅; redirect := None |} in
    Some (if Str.truthy modifier_str
          then _parse_modifiers modifier_str filter_obj
          else filter_obj).

(** *** [parse_cosmetic_filter] *)

Definition procedural_prefixes : list string :=
  [":has("; ":xpath("; ":not("; ":matches-css("; "+js("].

Definition parse_cosmetic_filter (line : string) : option CosmeticFilter :=
  let is_exception := Str.contains "#@#" line in
  let sep :=
    if is_exception then Some "#@#"
    else if Str.contains "##" line then Some "##"
    else None in
  match sep with
  | None => None
  | Some sep =>
      match Str.split_once sep line with
      | [domain_part; selector] =>
          let selector := Str.strip selector in
          if Str.is_empty selector then None
          else if existsb (fun prefix => Str.startswith prefix selector)
                    procedural_prefixes
          then None
          else
            let '(included, excluded) :=
              if Str.truthy domain_part
              then parse_domain_list "," domain_part
              else (∅, ∅) in
            Some {| c_raw := line; selector := selector;
                    c_is_exception := is_exception;
                    c_domains := included; c_excluded_domains := excluded |}
      | _ => None
      end
  end.

(** *** [parse_scriptlet_filter] *)

Definition parse_scriptlet_filter (line : string) : option ScriptletFilter :=
  match Str.find "##+js(" line with
  | None => None
  | Some sep_idx =>
      let domain_part := Str.take sep_idx line in
      let scriptlet_part := Str.drop (sep_idx + 6) line in
      if negb (Str.endswith ")" scriptlet_part) then None
      else
        let scriptlet_part := Str.drop_last scriptlet_part in
        match Str.split "," scriptlet_part with
        | [] => None
        | name :: rest =>
            let '(included, excluded) :=
              if Str.truthy domain_part
              then parse_domain_list "," domain_part
              else (∅, ∅) in
            Some {| s_raw := line; scriptlet_name := Str.strip name;
                    args := Str.strip <$> rest;
                    s_domains := included; s_excluded_domains := excluded |}
        end
  end.

(** *** [parse_filter_list] and [parse_all_filter_lists] *)

Record ParsedFilters := {
  network_filters : list NetworkFilter;
  cosmetic_filters : list CosmeticFilter;
  scriptlet_filters : list ScriptletFilter
}.

(** [ParsedFilters()]. *)
Definition no_filters : ParsedFilters :=
  {| network_filters := []; cosmetic_filters := [];
     scriptlet_filters := [] |}.

(** [list.extend] on each of the three lists. *)
Definition extend (result parsed : ParsedFilters) : ParsedFilters :=
  {| network_filters := network_filters result ++ network_filters parsed;
     cosmetic_filters := cosmetic_filters result ++ cosmetic_filters parsed;
     scriptlet_filters :=
       scriptlet_filters result ++ scriptlet_filters parsed |}.

(** The lines skipped as empty or as comments. *)
Definition skipped_line (line : string) : bool :=
  Str.is_empty line || Str.startswith "!" line || Str.startswith "[" line.

(** One turn of the loop over [content.splitlines()]. *)
Definition parse_line (result : ParsedFilters) (line : string)
  : ParsedFilters :=
  let line := Str.strip line in
  if skipped_line line then result
  else if Str.contains "##+js(" line then
    match parse_scriptlet_filter line with
    | Some parsed =>
        {| network_filters := network_filters result;
           cosmetic_filters := cosmetic_filters result;
           scriptlet_filters := scriptlet_filters result ++ [parsed] |}
    | None => result
    end
  else if Str.contains "##" line || Str.contains "#@#" line then
    match parse_cosmetic_filter line with
    | Some parsed_cosmetic =>
        {| network_filters := network_filters result;
           cosmetic_filters := cosmetic_filters result ++ [parsed_cosmetic];
           scriptlet_filters := scriptlet_filters result |}
    | None => result
    end
  else
    match parse_network_filter line with
    | Some parsed_network =>
        {| network_filters := network_filters result ++ [parsed_network];
           cosmetic_filters := cosmetic_filters result;
           scriptlet_filters := scriptlet_filters result |}
    | None => result
    end.

Definition parse_filter_list (content : string) : ParsedFilters :=
  foldl parse_line no_filters (Str.splitlines content).

(** [lists] is the dictionary in its insertion order. *)
Definition parse_all_filter_lists (lists : list (string * string))
  : ParsedFilters :=
  foldl (fun result entry => extend result (parse_filter_list entry.2))
    no_filters lists.

(** The branch that the loop body of [parse_filter_list] takes for a
    stripped line, and what each branch appends. *)
Inductive LineKind :=
| SkippedLine
| ScriptletLine
| CosmeticLine
| NetworkLine.

Definition line_kind (line : string) : LineKind :=
  if skipped_line line then SkippedLine
  else if Str.contains "##+js(" line then ScriptletLine
  else if Str.contains "##" line || Str.contains "#@#" line then CosmeticLine
  else NetworkLine.

Definition network_of_line (line : string) : option NetworkFilter :=
  match line_kind line with
  | NetworkLine => parse_network_filter line
  | _ => None
  end.

Definition cosmetic_of_line (line : string) : option CosmeticFilter :=
  match line_kind line with
  | CosmeticLine => parse_cosmetic_filter line
  | _ => None
  end.

Definition scriptlet_of_line (line : string) : option ScriptletFilter :=
  match line_kind line with
  | ScriptletLine => parse_scriptlet_filter line
  | _ => None
  end.

(** [line.strip()] for each line of [content.splitlines()]. *)
Definition stripped_lines (content : string) : list string :=
  Str.strip <$> Str.splitlines content.

End Parser.

(** ** The [re] engine on the fragments of [_pattern_to_regex]

    [re.compile(escaped, re.IGNORECASE).search(url)]: no [MULTILINE], no
    [DOTALL].  [.] is any character but a newline, [$] holds at the end and
    before a final newline, [^] only at index 0. *)

Module Regex.
Import Parser.

Definition newline : ascii := ascii_of_nat 10.

Definition at_eol (s : string) : bool :=
  match s with
  | EmptyString => true
  | String c EmptyString => Ascii.eqb c newline
  | _ => false
  end.

(** [[^\w\-.]]. *)
Definition is_separator (c : ascii) : bool :=
  negb (Str.is_word c || Ascii.eqb c "-" || Ascii.eqb c ".").

(** [matches_here rs bol s]: the fragments [rs] match a prefix of [s];
    [bol] says that [s] starts at index 0 of the searched text. *)
Fixpoint matches_here (rs : list Rx) : bool -> string -> bool :=
  match rs with
  | [] => fun _ _ => true
  | r :: rs' =>
      let rest := matches_here rs' in
      match r with
      | RxLit c => fun _ s =>
          match s with
          | String d s' =>
              Ascii.eqb (Str.lower_char d) (Str.lower_char c) && rest false s'
          | EmptyString => false
          end
      | RxSep => fun bol s =>
          match s with
          | String d s' => is_separator d && rest false s'
          | EmptyString => false
          end || (at_eol s && rest bol s)
      | RxBol => fun bol s => bol && rest bol s
      | RxEol => fun bol s => at_eol s && rest bol s
      | RxAny =>
          fix star (bol : bool) (s : string) : bool :=
            rest bol s
            || match s with
               | String d s' => negb (Ascii.eqb d newline) && star false s'
               | EmptyString => false
               end
      end
  end.

Fixpoint search_from (rs : list Rx) (bol : bool) (s : string) : bool :=
  matches_here rs bol s
  || match s with
     | String _ s' => search_from rs false s'
     | EmptyString => false
     end.

(** [regex.search(text) is not None]. *)
Definition search (rs : list Rx) (text : string) : bool :=
  search_from rs true text.

End Regex.

(** ** matcher.py *)

Module Matcher.
Import Parser.

Record MatchResult := {
  mr_blocked : bool;
  mr_filter : option NetworkFilter;
  mr_redirect : option string
}.

(** How a caller reads a [MatchResult] ([engine.py], [_handle_route]):
    [blocked] with a truthy [redirect] is a redirect, [blocked] alone a
    block, anything else lets the request through. *)
Inductive Decision :=
| Allow
| Block
| Redirect (name : string).

Definition decision (r : MatchResult) : Decision :=
  if mr_blocked r then
    match mr_redirect r with
    | Some name => if Str.truthy name then Redirect name else Block
    | None => Block
    end
  else Allow.

Fixpoint suffixes {A : Type} (l : list A) : list (list A) :=
  match l with
  | [] => []
  | _ :: l' => l :: suffixes l'
  end.

(** [[".".join(parts[i:]) for i in range(len(parts))]]. *)
Definition _get_hostname_variants (hostname : string) : list string :=
  Str.join "." <$> suffixes (Str.split "." hostname).

Definition get_domain (hostname : string) : string :=
  let parts := Str.split "." hostname in
  if 2 <=? length parts then Str.join "." (drop (length parts - 2) parts)
  else hostname.

Definition _is_third_party (url_hostname : string)
    (source_hostname : option string) : bool :=
  match source_hostname with
  | None => false
  | Some source =>
      if Str.is_empty source then false
      else negb (String.eqb (get_domain url_hostname) (get_domain source))
  end.

Definition is_empty_set `{Countable A} (s : gset A) : bool :=
  bool_decide (s = ∅).

Definition _domain_matches (hostname : string)
    (included excluded : gset string) : bool :=
  if is_empty_set included && is_empty_set excluded then true
  else
    let hostname_variants := _get_hostname_variants (Str.lower hostname) in
    if existsb (fun variant => bool_decide (variant ∈ excluded))
         hostname_variants
    then false
    else if is_empty_set included then true
    else existsb (fun variant => bool_decide (variant ∈ included))
           hostname_variants.

Record NetworkFilterMatcher := {
  _hostname_index : gmap string (list NetworkFilter);
  _exception_hostname_index : gmap string (list NetworkFilter);
  _generic_filters : list NetworkFilter;
  _generic_exceptions : list NetworkFilter;
  _total_filters : nat;
  _hostname_indexed : nat
}.

(** [NetworkFilterMatcher()]. *)
Definition init : NetworkFilterMatcher :=
  {| _hostname_index := ∅; _exception_hostname_index := ∅;
     _generic_filters := []; _generic_exceptions := [];
     _total_filters := 0; _hostname_indexed := 0 |}.

(** [index.get(key, [])]. *)
Definition get_list {A : Type} (index : gmap string (list A)) (key : string)
  : list A :=
  default [] (index !! key).

(** [if key not in index: index[key] = []] then [index[key].append(f)]. *)
Definition index_append {A : Type} (index : gmap string (list A))
    (key : string) (f : A) : gmap string (list A) :=
  <[ key := get_list index key ++ [f] ]> index.

(** [f.is_hostname_anchor and f.hostname], and the key it is filed under. *)
Definition index_key (f : NetworkFilter) : option string :=
  if is_hostname_anchor f then
    match hostname f with
    | Some h => if Str.truthy h then Some h else None
    | None => None
    end
  else None.

Definition _add_filter (m : NetworkFilterMatcher) (f : NetworkFilter)
  : NetworkFilterMatcher :=
  match index_key f with
  | Some h =>
      if is_exception f then
        {| _hostname_index := _hostname_index m;
           _exception_hostname_index :=
             index_append (_exception_hostname_index m) h f;
           _generic_filters := _generic_filters m;
           _generic_exceptions := _generic_exceptions m;
           _total_filters := _total_filters m + 1;
           _hostname_indexed := _hostname_indexed m + 1 |}
      else
        {| _hostname_index := index_append (_hostname_index m) h f;
           _exception_hostname_index := _exception_hostname_index m;
           _generic_filters := _generic_filters m;
           _generic_exceptions := _generic_exceptions m;
           _total_filters := _total_filters m + 1;
           _hostname_indexed := _hostname_indexed m + 1 |}
  | None =>
      if is_exception f then
        {| _hostname_index := _hostname_index m;
           _exception_hostname_index := _exception_hostname_index m;
           _generic_filters := _generic_filters m;
           _generic_exceptions := _generic_exceptions m ++ [f];
           _total_filters := _total_filters m + 1;
           _hostname_indexed := _hostname_indexed m |}
      else
        {| _hostname_index := _hostname_index m;
           _exception_hostname_index := _exception_hostname_index m;
           _generic_filters := _generic_filters m ++ [f];
           _generic_exceptions := _generic_exceptions m;
           _total_filters := _total_filters m + 1;
           _hostname_indexed := _hostname_indexed m |}
  end.

Definition add_filters (m : NetworkFilterMatcher) (filters : list NetworkFilter)
  : NetworkFilterMatcher :=
  foldl _add_filter m filters.

(** The four containers of the matcher: the two generic lists and, for
    each key, the list filed under it in one of the two indices. *)
Inductive Container :=
| Generic (exception : bool)
| Indexed (exception : bool) (key : string).

(** The container that the branches of [_add_filter] pick for [f]. *)
Definition container_of (f : NetworkFilter) : Container :=
  match index_key f with
  | Some h => Indexed (is_exception f) h
  | None => Generic (is_exception f)
  end.

Definition in_container (c : Container) (f : NetworkFilter) : bool :=
  match c, container_of f with
  | Generic e, Generic e' => Bool.eqb e e'
  | Indexed e k, Indexed e' k' => Bool.eqb e e' && String.eqb k k'
  | _, _ => false
  end.

Definition contents (m : NetworkFilterMatcher) (c : Container)
  : list NetworkFilter :=
  match c with
  | Generic false => _generic_filters m
  | Generic true => _generic_exceptions m
  | Indexed false key => get_list (_hostname_index m) key
  | Indexed true key => get_list (_exception_hostname_index m) key
  end.

(** A matcher after a sequence of [add_filters] calls. *)
Definition after_adding (batches : list (list NetworkFilter))
  : NetworkFilterMatcher :=
  foldl add_filters init batches.

(** A matcher loaded the way the unit tests load it: each line parsed by
    [parse_network_filter], the filters handed to one [add_filters]. *)
Definition matcher_of (lines : list string) : NetworkFilterMatcher :=
  add_filters init (omap parse_network_filter lines).

(** [hostname == domain or hostname.endswith("." + domain)]: the hostname
    is the domain or one of its subdomains. *)
Definition covers (domain hostname : string) : bool :=
  String.eqb hostname domain || Str.endswith ("." +:+ domain) hostname.

Section Matching.

(** [urlparse(url).netloc]; [None] when [urlparse] raises. *)
Variable urlparse_netloc : string -> option string.

(** [re.compile(source, re.IGNORECASE).search(text) is not None] for a
    filter written as [/regex/]; [None] when compiling raises. *)
Variable re_search_raw : string -> string -> option bool.

(** [hostname.split(":")[0]] when the netloc has a port. *)
Definition strip_port (hostname : string) : string :=
  if Str.contains ":" hostname then
    match Str.split ":" hostname with
    | p :: _ => p
    | [] => hostname
    end
  else hostname.

(** The [try] block of [should_block] and of [_pattern_matches]. *)
Definition url_hostname (url : string) : option string :=
  netloc ← urlparse_netloc url; Some (strip_port (Str.lower netloc)).

Definition regex_search (regex : Compiled) (url : string) : option bool :=
  match regex with
  | CompiledRaw source => re_search_raw source url
  | CompiledRx rs => Some (Regex.search rs url)
  end.

Definition _pattern_matches (f : NetworkFilter) (url : string) : bool :=
  let anchored :=
    if is_hostname_anchor f then
      let hostname := default EmptyString (hostname f) in
      match url_hostname url with
      | Some url_host =>
          String.eqb url_host hostname
          || Str.endswith ("." +:+ hostname) url_host
      | None => false
      end
    else true in
  if negb anchored then false
  else if is_plain f then
    let pattern :=
      match index_key f with
      | Some h =>
          if Str.startswith h (pattern f) then Str.drop (Str.len h) (pattern f)
          else pattern f
      | None => pattern f
      end in
    if Str.truthy pattern then Str.contains (Str.lower pattern) (Str.lower url)
    else true
  else
    match regex_search (get_regex f) url with
    | Some found => found
    | None => false
    end.

(** [request_type in types], for a [request_type] that may be [None]. *)
Definition type_in (request_type : option RequestType)
    (types : gset RequestType) : bool :=
  match request_type with
  | Some t => bool_decide (t ∈ types)
  | None => false
  end.

Definition third_party_ok (f : NetworkFilter) (is_third_party : bool) : bool :=
  match third_party f with
  | Some wanted => Bool.eqb wanted is_third_party
  | None => true
  end.

Definition source_given (source_hostname : option string) : option string :=
  match source_hostname with
  | Some s => if Str.truthy s then Some s else None
  | None => None
  end.

Definition _filter_matches (f : NetworkFilter) (url hostname : string)
    (request_type : option RequestType) (source_hostname : option string)
    (is_third_party : bool) : bool :=
  if negb (third_party_ok f is_third_party) then false
  else if negb (is_empty_set (request_types f))
          && negb (type_in request_type (request_types f)) then false
  else if type_in request_type (excluded_types f) then false
  else if match source_given source_hostname with
          | Some s => negb (_domain_matches s (domains f) (excluded_domains f))
          | None => false
          end then false
  else _pattern_matches f url.

(** The two loops of [_find_blocking_filter] and [_find_exception]. *)
Fixpoint find_indexed (matches : NetworkFilter -> bool)
    (index : gmap string (list NetworkFilter)) (variants : list string)
  : option NetworkFilter :=
  match variants with
  | [] => None
  | variant :: rest =>
      match List.find matches (get_list index variant) with
      | Some f => Some f
      | None => find_indexed matches index rest
      end
  end.

Definition find_filter (index : gmap string (list NetworkFilter))
    (generic : list NetworkFilter) (url hostname : string)
    (request_type : option RequestType) (source_hostname : option string)
    (is_third_party : bool) : option NetworkFilter :=
  let matches f :=
    _filter_matches f url hostname request_type source_hostname
      is_third_party in
  match find_indexed matches index (_get_hostname_variants hostname) with
  | Some f => Some f
  | None => List.find matches generic
  end.

Definition _find_blocking_filter (m : NetworkFilterMatcher) :=
  find_filter (_hostname_index m) (_generic_filters m).

Definition _find_exception (m : NetworkFilterMatcher) :=
  find_filter (_exception_hostname_index m) (_generic_exceptions m).

Definition should_block (m : NetworkFilterMatcher) (url : string)
    (request_type : option RequestType) (source_hostname : option string)
  : MatchResult :=
  match url_hostname url with
  | None => {| mr_blocked := false; mr_filter := None; mr_redirect := None |}
  | Some hostname =>
      let is_third_party := _is_third_party hostname source_hostname in
      match _find_blocking_filter m url hostname request_type source_hostname
              is_third_party with
      | None =>
          {| mr_blocked := false; mr_filter := None; mr_redirect := None |}
      | Some blocking_filter =>
          match _find_exception m url hostname request_type source_hostname
                  is_third_party with
          | Some exception =>
              {| mr_blocked := false; mr_filter := Some exception;
                 mr_redirect := None |}
          | None =>
              match redirect blocking_filter with
              | Some name =>
                  if Str.truthy name then
                    {| mr_blocked := true; mr_filter := Some blocking_filter;
                       mr_redirect := Some name |}
                  else
                    {| mr_blocked := true; mr_filter := Some blocking_filter;
                       mr_redirect := None |}
              | None =>
                  {| mr_blocked := true; mr_filter := Some blocking_filter;
                     mr_redirect := None |}
              end
          end
      end
  end.

(** The match predicate as [should_block] applies it to a request: on the
    hostname of the URL and the third-party flag computed from it. *)
Definition request_matches (f : NetworkFilter) (url : string)
    (request_type : option RequestType) (source_hostname : option string)
  : bool :=
  match url_hostname url with
  | Some hostname =>
      _filter_matches f url hostname request_type source_hostname
        (_is_third_party hostname source_hostname)
  | None => false
  end.

(** The decision of the specification's [decide]. *)
Definition decide_request (m : NetworkFilterMatcher) (url : string)
    (request_type : option RequestType) (source_hostname : option string)
  : Decision :=
  decision (should_block m url request_type source_hostname).

(** Among the added filters one of the given kind (exception or not)
    matches the request. *)
Definition added_match (batches : list (list NetworkFilter)) (e : bool)
    (url : string) (request_type : option RequestType)
    (source_hostname : option string) : Prop :=
  ∃ f, f ∈ concat batches ∧ is_exception f = e
       ∧ request_matches f url request_type source_hostname = true.

End Matching.

End Matcher.

(** ** [urllib.parse.urlparse(url).netloc]

    The standard library's [urlsplit], as far as the network location goes:
    leading control characters and blanks are dropped, tabs and line breaks
    removed, a scheme [[A-Za-z][A-Za-z0-9+.-]*:] is cut off, and after ["//"]
    the location runs up to the first of ["/"], ["?"] and ["#"].  A location
    with a square bracket (an IPv6 literal, which the library validates or
    rejects with [ValueError]) is not modelled and reported as [None]. *)

Module Url.

Fixpoint lstrip_c0 (s : string) : string :=
  match s with
  | String c s' => if Str.code c <=? 32 then lstrip_c0 s' else s
  | EmptyString => EmptyString
  end.

Definition is_unsafe (c : ascii) : bool :=
  (Str.code c =? 9) || (Str.code c =? 10) || (Str.code c =? 13).

Fixpoint remove_unsafe (s : string) : string :=
  match s with
  | String c s' =>
      if is_unsafe c then remove_unsafe s' else String c (remove_unsafe s')
  | EmptyString => EmptyString
  end.

Definition is_scheme_char (c : ascii) : bool :=
  Str.is_upper c || Str.is_lower c || Str.is_digit c
  || Ascii.eqb c "+" || Ascii.eqb c "-" || Ascii.eqb c ".".

Fixpoint all_chars (p : ascii -> bool) (s : string) : bool :=
  match s with
  | String c s' => p c && all_chars p s'
  | EmptyString => true
  end.

Definition drop_scheme (url : string) : string :=
  match Str.find_char_from ":" url 0, url with
  | Some (S i), String c _ =>
      if (Str.is_upper c || Str.is_lower c)
         && all_chars is_scheme_char (Str.take (S i) url)
      then Str.drop (S i + 1) url
      else url
  | _, _ => url
  end.

Definition ends_netloc (c : ascii) : bool :=
  Ascii.eqb c "/" || Ascii.eqb c "?" || Ascii.eqb c "#".

Fixpoint netloc_prefix (s : string) : string :=
  match s with
  | String c s' => if ends_netloc c then EmptyString
                   else String c (netloc_prefix s')
  | EmptyString => EmptyString
  end.

Definition netloc (url : string) : option string :=
  let url := drop_scheme (remove_unsafe (lstrip_c0 url)) in
  if Str.startswith "//" url then
    let loc := netloc_prefix (Str.drop 2 url) in
    if Str.has_char "[" loc || Str.has_char "]" loc then None else Some loc
  else Some EmptyString.

End Url.

(** ** resources.py *)

Module Resources.

(** The body of a resource is a byte string, written in the source either
    directly or as the base64 text handed to [base64.b64decode]; the bytes
    themselves play no part in the decisions. *)
Inductive Content :=
| bytes (literal : string)
| b64decode (text : string).

Definition Resource : Type := Content * string.

Definition RESOURCES : gmap string Resource :=
  list_to_map [
    ("1x1.gif",
      (b64decode "R0lGODlhAQABAIAAAAAAAP///yH5BAEAAAAALAAAAAABAAEAAAIBRAA7",
       "image/gif"));
    ("2x2.png",
      (b64decode ("iVBORw0KGgoAAAANSUhEUgAAAAIAAAACCAYAAABytg0kAAAAC0lEQVQI12Ng"
         +:+ "AAIAAAUAAeImBZsAAAAASUVORK5CYII="),
       "image/png"));
    ("3x2.png",
      (b64decode ("iVBORw0KGgoAAAANSUhEUgAAAAMAAAACCAYAAACddGYaAAAAC0lEQVQI12Ng"
         +:+ "AAIAAAUAAeImBZsAAAAASUVORK5CYII="),
       "image/png"));
    ("32x32.png",
      (b64decode ("iVBORw0KGgoAAAANSUhEUgAAACAAAAAgCAYAAABzenr0AAAAGklEQVRYR+3O"
         +:+ "AQEAAAQEMP7/1KhkUKsA7BkPCgCjAAACsEXLAAAAAElFTkSuQmCC"),
       "image/png"));
    ("noopjs",
      (bytes "(function(){})();",
       "application/javascript"));
    ("noopjson",
      (bytes "{}",
       "application/json"));
    ("nooptext",
      (bytes "",
       "text/plain"));
    ("noopframe",
      (bytes "<!DOCTYPE html><html><head></head><body></body></html>",
       "text/html"));
    ("noopmp3-0.1s",
      (b64decode ("/+NIxAAAAAANIAAAAAExBTUUzLjEwMFVVVVVVVVVVVVVVVVVVVVVVVVVVVVV"
         +:+ "VVVVVVVVVVVVVVVVVVVVVVVVVVVVVVVVVVVVVVVVVVVVVVVVVVVVVVVVVVVV"
         +:+ "VVVVVVVVVVVVVVVVVVVVVVVVVVVVVVVVVVVVVVVVVVVVVVVVVVVVVVVVVVVV"
         +:+ "VVVVVVVVVVVVVVVVVVVVVVVVVVVVVVVVVQ=="),
       "audio/mpeg"));
    ("noopmp4-1s",
      (b64decode ("AAAAHGZ0eXBNNFYgAAACAGlzb21pc28yYXZjMQAAAAhmcmVlAAAAGm1kYXQA"
         +:+ "AAKuBgX//6rcRem95tlIt5Ys2CDZI+7veDI2NCAtIGNvcmUgMTU1IHIyOTE3"
         +:+ "IDBhODRkOTggLSBILjI2NC9NUEVHLTQgQVZDIGNvZGVjIC0gQ29weWxlZnQg"
         +:+ "MjAwMy0yMDE4IC0gaHR0cDovL3d3dy52aWRlb2xhbi5vcmcveDI2NC5odG1s"
         +:+ "IC0gb3B0aW9uczogY2FiYWM9MSByZWY9MyBkZWJsb2NrPTE6MDowIGFuYWx5"
         +:+ "c2U9MHgzOjB4MTEzIG1lPWhleCBzdWJtZT03IHBzeT0xIHBzeV9yZD0xLjAw"
         +:+ "OjAuMDAgbWl4ZWRfcmVmPTEgbWVfcmFuZ2U9MTYgY2hyb21hX21lPTEgdHJl"
         +:+ "bGxpcz0xIDh4OGRjdD0xIGNxbT0wIGRlYWR6b25lPTIxLDExIGZhc3RfcHNr"
         +:+ "aXA9MSBjaHJvbWFfcXBfb2Zmc2V0PS0yIHRocmVhZHM9MSBsb29rYWhlYWRf"
         +:+ "dGhyZWFkcz0xIHNsaWNlZF90aHJlYWRzPTAgbnI9MCBkZWNpbWF0ZT0xIGlu"
         +:+ "dGVybGFjZWQ9MCBibHVyYXlfY29tcGF0PTAgY29uc3RyYWluZWRfaW50cmE9"
         +:+ "MCBiZnJhbWVzPTMgYl9weXJhbWlkPTIgYl9hZGFwdD0xIGJfYmlhcz0wIGRp"
         +:+ "cmVjdD0xIHdlaWdodGI9MSBvcGVuX2dvcD0wIHdlaWdodHA9MiBrZXlpbnQ9"
         +:+ "MjUwIGtleWludF9taW49MjUgc2NlbmVjdXQ9NDAgaW50cmFfcmVmcmVzaD0w"
         +:+ "IHJjX2xvb2thaGVhZD00MCByYz1jcmYgbWJ0cmVlPTEgY3JmPTIzLjAgcWNv"
         +:+ "bXA9MC42MCBxcG1pbj0wIHFwbWF4PTY5IHFwc3RlcD00IGlwX3JhdGlvPTEu"
         +:+ "NDAgYXE9MToxLjAwAIAAAAAwZYiEABRRAAAAAAAWAAAA8gAAvU/yoEAAALmv"
         +:+ "AAAADAEAAAMAAAMA4E+lB3AAAAA="),
       "video/mp4"));
    ("google-analytics.com/analytics.js",
      (bytes ("(function(){var a=window.GoogleAnalyticsObject='ga';window[a"
         +:+ "]=window[a]||function(){(window[a].q=window[a].q||[]).push(a"
         +:+ "rguments)};window[a].l=+new Date;})();"),
       "application/javascript"));
    ("googletagmanager.com/gtag/js",
      (bytes ("(function(){window.dataLayer=window.dataLayer||[];function g"
         +:+ "tag(){dataLayer.push(arguments)};gtag('js',new Date);})();"),
       "application/javascript"));
    ("googletagmanager.com/gtm.js",
      (bytes "(function(){})();",
       "application/javascript"));
    ("doubleclick.net/instream/ad_status.js",
      (bytes "(function(){})();",
       "application/javascript"))
  ].

Definition RESOURCE_ALIASES : gmap string string :=
  list_to_map [
    ("1x1-transparent.gif", "1x1.gif");
    ("1x1.transparent.gif", "1x1.gif");
    ("noop-1x1.gif", "1x1.gif");
    ("2x2-transparent.png", "2x2.png");
    ("2x2.transparent.png", "2x2.png");
    ("noop-2x2.png", "2x2.png");
    ("3x2-transparent.png", "3x2.png");
    ("3x2.transparent.png", "3x2.png");
    ("32x32-transparent.png", "32x32.png");
    ("32x32.transparent.png", "32x32.png");
    ("noop.js", "noopjs");
    ("noopjs.js", "noopjs");
    ("noop-vmap1.0.xml", "nooptext");
    ("noop-0.1s.mp3", "noopmp3-0.1s");
    ("noopmp3", "noopmp3-0.1s");
    ("noop-1s.mp4", "noopmp4-1s");
    ("noopmp4", "noopmp4-1s");
    ("noop.html", "noopframe");
    ("noopframe.html", "noopframe");
    ("google-analytics_analytics.js", "google-analytics.com/analytics.js");
    ("googlesyndication_adsbygoogle.js", "noopjs");
    ("googletagservices_gpt.js", "noopjs");
    ("scorecardresearch_beacon.js", "noopjs");
    ("outbrain-widget.js", "noopjs");
    ("ampproject_v0.js", "noopjs");
    ("amazon_ads.js", "noopjs");
    ("monkeybroker.js", "noopjs");
    ("nobab.js", "noopjs");
    ("nobab2.js", "noopjs")
  ].

Definition get_redirect_resource (name : string) : option Resource :=
  let name := default name (RESOURCE_ALIASES !! name) in
  RESOURCES !! name.

End Resources.

(** ** cosmetic.py *)

Module Cosmetic.
Import Parser.

Definition _get_hostname_variants (hostname : string) : list string :=
  Str.join "." <$> Matcher.suffixes (Str.split "." hostname).

Definition _domain_matches (hostname : string)
    (included excluded : gset string) : bool :=
  let hostname_variants := _get_hostname_variants (Str.lower hostname) in
  if existsb (fun variant => bool_decide (variant ∈ excluded))
       hostname_variants
  then false
  else if Matcher.is_empty_set included then true
  else existsb (fun variant => bool_decide (variant ∈ included))
         hostname_variants.

Record CosmeticFilterHandler := {
  _global_filters : list CosmeticFilter;
  _global_exceptions : list CosmeticFilter;
  _domain_filters : gmap string (list CosmeticFilter);
  _domain_exceptions : gmap string (list CosmeticFilter);
  _total_filters : nat
}.

Definition init : CosmeticFilterHandler :=
  {| _global_filters := []; _global_exceptions := [];
     _domain_filters := ∅; _domain_exceptions := ∅; _total_filters := 0 |}.

(** [for domain in f.domains: ... index[domain].append(f)]. *)
Definition index_under {A : Type} (index : gmap string (list A))
    (keys : gset string) (f : A) : gmap string (list A) :=
  foldl (fun index domain => Matcher.index_append index domain f)
    index (elements keys).

(** The [append] to one of the two global lists. *)
Definition add_global (h : CosmeticFilterHandler) (f : CosmeticFilter)
  : CosmeticFilterHandler :=
  if c_is_exception f then
    {| _global_filters := _global_filters h;
       _global_exceptions := _global_exceptions h ++ [f];
       _domain_filters := _domain_filters h;
       _domain_exceptions := _domain_exceptions h;
       _total_filters := _total_filters h |}
  else
    {| _global_filters := _global_filters h ++ [f];
       _global_exceptions := _global_exceptions h;
       _domain_filters := _domain_filters h;
       _domain_exceptions := _domain_exceptions h;
       _total_filters := _total_filters h |}.

(** The loop over [f.domains] on one of the two indices. *)
Definition add_indexed (h : CosmeticFilterHandler) (f : CosmeticFilter)
  : CosmeticFilterHandler :=
  if c_is_exception f then
    {| _global_filters := _global_filters h;
       _global_exceptions := _global_exceptions h;
       _domain_filters := _domain_filters h;
       _domain_exceptions :=
         index_under (_domain_exceptions h) (c_domains f) f;
       _total_filters := _total_filters h |}
  else
    {| _global_filters := _global_filters h;
       _global_exceptions := _global_exceptions h;
       _domain_filters := index_under (_domain_filters h) (c_domains f) f;
       _domain_exceptions := _domain_exceptions h;
       _total_filters := _total_filters h |}.

Definition count_filter (h : CosmeticFilterHandler) : CosmeticFilterHandler :=
  {| _global_filters := _global_filters h;
     _global_exceptions := _global_exceptions h;
     _domain_filters := _domain_filters h;
     _domain_exceptions := _domain_exceptions h;
     _total_filters := _total_filters h + 1 |}.

Definition _add_filter (h : CosmeticFilterHandler) (f : CosmeticFilter)
  : CosmeticFilterHandler :=
  let h := count_filter h in
  if Matcher.is_empty_set (c_domains f)
     && Matcher.is_empty_set (c_excluded_domains f)
  then add_global h f
  else if negb (Matcher.is_empty_set (c_domains f)) then add_indexed h f
  else add_global h f.

Definition add_filters (h : CosmeticFilterHandler)
    (filters : list CosmeticFilter) : CosmeticFilterHandler :=
  foldl _add_filter h filters.

Definition applies (hostname : string) (f : CosmeticFilter) : bool :=
  _domain_matches hostname (c_domains f) (c_excluded_domains f).

(** The filters met by [for variant in ...: for f in index.get(variant, [])]. *)
Definition indexed (index : gmap string (list CosmeticFilter))
    (hostname : string) : list CosmeticFilter :=
  mjoin (Matcher.get_list index <$> _get_hostname_variants hostname).

Definition exception_selectors (h : CosmeticFilterHandler) (hostname : string)
  : gset string :=
  list_to_set
    (selector <$>
       List.filter (applies hostname)
         (_global_exceptions h ++ indexed (_domain_exceptions h) hostname)).

Definition get_selectors_for_domain (h : CosmeticFilterHandler)
    (hostname : string) : list string :=
  let hostname := Str.lower hostname in
  let exception_selectors := exception_selectors h hostname in
  selector <$>
    List.filter
      (fun f => negb (bool_decide (selector f ∈ exception_selectors))
                && applies hostname f)
      (_global_filters h ++ indexed (_domain_filters h) hostname).

Definition double_quote : ascii := ascii_of_nat 34.
Definition single_quote : ascii := ascii_of_nat 39.
Definition backslash : ascii := ascii_of_nat 92.

(** The test of the inner loop: a double quote in [sel], [or] (a single
    quote in [sel] [and] no backslash in [sel]); [and] binds tighter. *)
Definition skipped (sel : string) : bool :=
  Str.has_char double_quote sel
  || (Str.has_char single_quote sel && negb (Str.has_char backslash sel)).

Definition batch_size : nat := 100.

(** [range(0, stop, step)]. *)
Definition range_step (stop step : nat) : list nat :=
  (fun k => k * step) <$> seq 0 ((stop + step - 1) / step).

(** [selectors[i : i + batch_size]] for each [i] of the range. *)
Definition batches (selectors : list string) : list (list string) :=
  (fun i => take batch_size (drop i selectors))
    <$> range_step (length selectors) batch_size.

Definition safe_selectors (batch : list string) : list string :=
  List.filter (fun sel => negb (skipped sel)) batch.

Definition css_rule (safe : list string) : string :=
  Str.join ", " safe +:+ " { display: none !important; }".

Definition css_rules (selectors : list string) : list string :=
  css_rule <$>
    List.filter (fun safe => negb (bool_decide (safe = [])))
      (safe_selectors <$> batches selectors).

Definition newline_string : string := String Regex.newline EmptyString.

Definition get_css_for_domain (h : CosmeticFilterHandler) (hostname : string)
  : string :=
  let selectors := get_selectors_for_domain h hostname in
  match selectors with
  | [] => EmptyString
  | _ => Str.join newline_string (css_rules selectors)
  end.

End Cosmetic.

(** ** scriptlets.py *)

Module Scriptlets.
Import Parser.

Definition SCRIPTLET_ALIASES : gmap string string :=
  list_to_map [
    ("aopr", "abort-on-property-read");
    ("aopw", "abort-on-property-write");
    ("set", "set-constant");
    ("rc", "remove-class");
    ("nostif", "no-setTimeout-if");
    ("nosiif", "no-setInterval-if");
    ("aeld", "addEventListener-defuser");
    ("nano-setInterval-booster", "no-setInterval-if");
    ("nano-setTimeout-booster", "no-setTimeout-if")
  ].

Definition _get_hostname_variants (hostname : string) : list string :=
  Str.join "." <$> Matcher.suffixes (Str.split "." hostname).

Definition _domain_matches (hostname : string)
    (included excluded : gset string) : bool :=
  let hostname_variants := _get_hostname_variants (Str.lower hostname) in
  if existsb (fun variant => bool_decide (variant ∈ excluded))
       hostname_variants
  then false
  else if Matcher.is_empty_set included then false
  else existsb (fun variant => bool_decide (variant ∈ included))
         hostname_variants.

Record ScriptletHandler := {
  _domain_scriptlets : gmap string (list ScriptletFilter);
  _total_scriptlets : nat
}.

Definition init : ScriptletHandler :=
  {| _domain_scriptlets := ∅; _total_scriptlets := 0 |}.

Definition _add_filter (h : ScriptletHandler) (f : ScriptletFilter)
  : ScriptletHandler :=
  {| _domain_scriptlets :=
       Cosmetic.index_under (_domain_scriptlets h) (s_domains f) f;
     _total_scriptlets := _total_scriptlets h + 1 |}.

Definition add_filters (h : ScriptletHandler) (filters : list ScriptletFilter)
  : ScriptletHandler :=
  foldl _add_filter h filters.

Section Registry.

(** [SCRIPTLETS]: the JavaScript text registered under each canonical
    name.  The texts are static data; what follows holds for any registry. *)
Variable SCRIPTLETS : gmap string string.

Definition quote (arg : string) : string := "'" +:+ arg +:+ "'".

(** [f"({impl})({args_str});"]. *)
Definition script_of (impl : string) (f : ScriptletFilter) : string :=
  "(" +:+ impl +:+ ")(" +:+ Str.join ", " (quote <$> args f) +:+ ");".

(** The body of the inner loop: the script appended for [f], or [None]
    when the loop [continue]s. *)
Definition emit (hostname : string) (f : ScriptletFilter) : option string :=
  if negb (_domain_matches hostname (s_domains f) (s_excluded_domains f))
  then None
  else
    let name := scriptlet_name f in
    let name := default name (SCRIPTLET_ALIASES !! name) in
    match SCRIPTLETS !! name with
    | None => None
    | Some impl => Some (script_of impl f)
    end.

Definition indexed (h : ScriptletHandler) (hostname : string)
  : list ScriptletFilter :=
  mjoin (Matcher.get_list (_domain_scriptlets h)
           <$> _get_hostname_variants hostname).

(** Each appended script with the filter it was built for. *)
Definition emitted (h : ScriptletHandler) (hostname : string)
  : list (ScriptletFilter * string) :=
  let hostname := Str.lower hostname in
  omap (fun f => pair f <$> emit hostname f) (indexed h hostname).

Definition get_scripts_for_domain (h : ScriptletHandler) (hostname : string)
  : list string :=
  snd <$> emitted h hostname.

End Registry.

End Scriptlets.

(** ** engine.py *)

Module Engine.
Import Parser Matcher.

(** [PLAYWRIGHT_TYPE_MAP.get(resource_type, RequestType.OTHER)]. *)
Definition PLAYWRIGHT_TYPE_MAP (resource_type : string) : RequestType :=
  if String.eqb resource_type "document" then DOCUMENT
  else if String.eqb resource_type "stylesheet" then STYLESHEET
  else if String.eqb resource_type "image" then IMAGE
  else if String.eqb resource_type "media" then MEDIA
  else if String.eqb resource_type "font" then FONT
  else if String.eqb resource_type "script" then SCRIPT
  else if String.eqb resource_type "texttrack" then OTHER
  else if String.eqb resource_type "xhr" then XMLHTTPREQUEST
  else if String.eqb resource_type "fetch" then XMLHTTPREQUEST
  else if String.eqb resource_type "eventsource" then OTHER
  else if String.eqb resource_type "websocket" then WEBSOCKET
  else if String.eqb resource_type "manifest" then OTHER
  else if String.eqb resource_type "other" then OTHER
  else OTHER.

(** The part of the engine that [_handle_route] reads and writes. *)
Record AdblockEngine := {
  _network_matcher : NetworkFilterMatcher;
  _requests_checked : nat;
  _requests_blocked : nat;
  _requests_redirected : nat
}.

(** What [_handle_route] reads of the Playwright route: [request.url], the
    URL of [request.frame] ([None] when there is no frame or reading it
    raises), [request.resource_type], and whether [route.fulfill] goes
    through or raises. *)
Record Route := {
  url : string;
  frame_url : option string;
  resource_type : string;
  fulfill_succeeds : bool
}.

(** The calls made on the route, in order. *)
Inductive RouteCall :=
| continue_
| fulfill (body : Resources.Content) (content_type : string) (status : nat)
| abort (error_code : string).

Definition get_stats (e : AdblockEngine) : list (string * nat) :=
  [("requests_checked", _requests_checked e);
   ("requests_blocked", _requests_blocked e);
   ("requests_redirected", _requests_redirected e)].

Section Handling.

Variable urlparse_netloc : string -> option string.
Variable re_search_raw : string -> string -> option bool.

Definition is_http (url : string) : bool :=
  Str.startswith "http://" url || Str.startswith "https://" url.

(** The [try] block that reads the frame. *)
Definition source_hostname_of (route : Route) : option string :=
  match frame_url route with
  | Some frame_url =>
      if Str.truthy frame_url then url_hostname urlparse_netloc frame_url
      else None
  | None => None
  end.

(** The result that [_handle_route] gets from the matcher. *)
Definition route_result (e : AdblockEngine) (route : Route) : MatchResult :=
  should_block urlparse_netloc re_search_raw (_network_matcher e) (url route)
    (Some (PLAYWRIGHT_TYPE_MAP (resource_type route)))
    (source_hostname_of route).

Definition checked (e : AdblockEngine) : AdblockEngine :=
  {| _network_matcher := _network_matcher e;
     _requests_checked := _requests_checked e + 1;
     _requests_blocked := _requests_blocked e;
     _requests_redirected := _requests_redirected e |}.

Definition blocked (e : AdblockEngine) : AdblockEngine :=
  {| _network_matcher := _network_matcher e;
     _requests_checked := _requests_checked e;
     _requests_blocked := _requests_blocked e + 1;
     _requests_redirected := _requests_redirected e |}.

Definition redirected (e : AdblockEngine) : AdblockEngine :=
  {| _network_matcher := _network_matcher e;
     _requests_checked := _requests_checked e;
     _requests_blocked := _requests_blocked e;
     _requests_redirected := _requests_redirected e + 1 |}.

(** The tail of [_handle_route] from the comment "Block the request". *)
Definition block_request (e : AdblockEngine) (calls : list RouteCall)
  : AdblockEngine * list RouteCall :=
  (blocked e, calls ++ [abort "blockedbyclient"]).

Definition _handle_route (e : AdblockEngine) (route : Route)
  : AdblockEngine * list RouteCall :=
  if negb (is_http (url route)) then (e, [continue_])
  else
    let e := checked e in
    let result := route_result e route in
    if mr_blocked result then
      match mr_redirect result with
      | Some name =>
          if Str.truthy name then
            match Resources.get_redirect_resource name with
            | Some (content, content_type) =>
                let e := redirected e in
                let call := fulfill content content_type 200 in
                if fulfill_succeeds route then (e, [call])
                else block_request e [call]
            | None => block_request e []
            end
          else block_request e []
      | None => block_request e []
      end
    else (e, [continue_]).

(** [_handle_route] on one request after the other; the calls are kept
    per request. *)
Fixpoint handle_routes (e : AdblockEngine) (routes : list Route)
  : AdblockEngine * list (list RouteCall) :=
  match routes with
  | [] => (e, [])
  | route :: rest =>
      let '(e, calls) := _handle_route e route in
      let '(e, more) := handle_routes e rest in
      (e, calls :: more)
  end.

End Handling.

End Engine.

(** ** Notions of the specification

    These definitions follow the words of the specification, not the code;
    the properties below compare them with the code. *)

Module Spec.

(** "A selector containing an unescaped quote character": a single or a
    double quote that no backslash escapes, a backslash escaping the
    character after it. *)
Fixpoint has_unescaped_quote (sel : string) : bool :=
  match sel with
  | EmptyString => false
  | String c rest =>
      if Ascii.eqb c Cosmetic.backslash then
        match rest with
        | String _ rest' => has_unescaped_quote rest'
        | EmptyString => false
        end
      else if Ascii.eqb c Cosmetic.double_quote
              || Ascii.eqb c Cosmetic.single_quote then true
      else has_unescaped_quote rest
  end.

(** The text after the first occurrence of [sep]. *)
Fixpoint after_first (sep s : string) : option string :=
  if Str.startswith sep s then Some (Str.drop (Str.len sep) s)
  else match s with
       | EmptyString => None
       | String _ s' => after_first sep s'
       end.

(** "Separator [#@#] (exception) takes priority over [##]; split once;
    selector ... after trim": the selector that a cosmetic line carries. *)
Definition selector_text (line : string) : option string :=
  match after_first "#@#" line with
  | Some rest => Some (Str.strip rest)
  | None =>
      match after_first "##" line with
      | Some rest => Some (Str.strip rest)
      | None => None
      end
  end.

(** "A selector using [:has(], [:xpath(], [:not(], [:matches-css(] or
    [+js(]": one of them occurs somewhere in the selector. *)
Definition uses_procedural (sel : string) : bool :=
  existsb (fun construct => Str.contains construct sel)
    Parser.procedural_prefixes.

(** The text before the last [c] and the text after it. *)
Fixpoint cut_last (c : ascii) (s : string) : option (string * string) :=
  match s with
  | EmptyString => None
  | String d s' =>
      match cut_last c s' with
      | Some (a, b) => Some (String d a, b)
      | None => if Ascii.eqb d c then Some (EmptyString, s') else None
      end
  end.

(** The text before the first [c] and the text after it. *)
Fixpoint cut_first (c : ascii) (s : string) : option (string * string) :=
  match s with
  | EmptyString => None
  | String d s' =>
      if Ascii.eqb d c then Some (EmptyString, s')
      else match cut_first c s' with
           | Some (a, b) => Some (String d a, b)
           | None => None
           end
  end.

(** "Looks like a regex pattern (starts with [/], contains at least two
    [/])". *)
Definition looks_like_regex (line : string) : bool :=
  Str.startswith "/" line && (2 <=? Str.count_char "/" line).

(** The line "after stripping a leading [@@] and the modifier suffix
    introduced by [$]": for a line that looks like a regex the suffix
    starts at the first [$] after the last [/], otherwise at the last
    [$]; without such a [$] nothing is stripped. *)
Definition pattern_text (line : string) : string :=
  let line := if Str.startswith "@@" line then Str.drop 2 line else line in
  if looks_like_regex line then
    match cut_last "/" line with
    | Some (head, tail) =>
        match cut_first "$" tail with
        | Some (before, _) => head +:+ "/" +:+ before
        | None => line
        end
    | None => line
    end
  else
    match cut_last "$" line with
    | Some (before, _) => before
    | None => line
    end.

End Spec.

(** ** Sample data *)

Module Samples.
Import Parser.

(** A stand-in for the [re] engine on [/regex/] filters, for requests
    against filters none of which is written that way: it is never asked. *)
Definition no_raw_regex : string -> string -> option bool :=
  fun _ _ => None.

Definition plain_filter (pattern : string) (exception : bool)
    (host : option string) (plain : bool) : NetworkFilter :=
  {| raw := pattern; pattern := pattern; is_exception := exception;
     is_hostname_anchor := true; is_left_anchor := false;
     is_right_anchor := false; is_plain := plain; is_regex := false;
     hostname := host; third_party := None; request_types := ∅;
     excluded_types := ∅; domains := ∅; excluded_domains := ∅;
     redirect := None |}.

(** [f] with other domain sets, everything else as it is. *)
Definition with_domains (f : NetworkFilter) (inc exc : gset string)
  : NetworkFilter :=
  {| raw := raw f; pattern := pattern f; is_exception := is_exception f;
     is_hostname_anchor := is_hostname_anchor f;
     is_left_anchor := is_left_anchor f; is_right_anchor := is_right_anchor f;
     is_plain := is_plain f; is_regex := is_regex f; hostname := hostname f;
     third_party := third_party f; request_types := request_types f;
     excluded_types := excluded_types f;
     domains := inc; excluded_domains := exc; redirect := redirect f |}.

(** The filters of [test_exception_overrides_block], as parsed from
    ["||example.com^"] and ["@@||example.com/allowed^"]. *)
Definition block_example : NetworkFilter :=
  plain_filter "example.com^" false (Some "example.com") false.

Definition allow_example : NetworkFilter :=
  plain_filter "example.com/allowed^" true (Some "example.com") false.

(** ["||a.com^$domain=b.com"], as parsed. *)
Definition only_on_b : NetworkFilter :=
  {| raw := "a.com^"; pattern := "a.com^"; is_exception := false;
     is_hostname_anchor := true; is_left_anchor := false;
     is_right_anchor := false; is_plain := false; is_regex := false;
     hostname := Some "a.com"; third_party := None; request_types := ∅;
     excluded_types := ∅; domains := {[ "b.com" ]}; excluded_domains := ∅;
     redirect := None |}.

(** An engine whose only filter redirects to a resource that
    [resources.py] does not have, and a script request that the filter
    matches. *)
Definition engine_of (lines : list string) : Engine.AdblockEngine :=
  {| Engine._network_matcher := Matcher.matcher_of lines;
     Engine._requests_checked := 0; Engine._requests_blocked := 0;
     Engine._requests_redirected := 0 |}.

Definition script_request (url : string) : Engine.Route :=
  {| Engine.url := url; Engine.frame_url := None;
     Engine.resource_type := "script"; Engine.fulfill_succeeds := true |}.

(** A registry holding the [window.name-defuser] entry of [SCRIPTLETS]. *)
Definition name_defuser_registry : gmap string string :=
  {[ "window.name-defuser" := "
(function() {
    window.name = '';
})
" ]}.

(** [example.com##+js(window.name-defuser)] and [##+js(window.name-defuser)],
    as [parse_scriptlet_filter] builds them. *)
Definition defuser_on_example : ScriptletFilter :=
  {| s_raw := "example.com##+js(window.name-defuser)";
     scriptlet_name := "window.name-defuser"; args := [];
     s_domains := {[ "example.com" ]}; s_excluded_domains := ∅ |}.

Definition defuser_everywhere : ScriptletFilter :=
  {| s_raw := "##+js(window.name-defuser)";
     scriptlet_name := "window.name-defuser"; args := [];
     s_domains := ∅; s_excluded_domains := ∅ |}.

(** A handler holding the one global filter written [##x\y'z]. *)
Definition quoted_selector : string := "x\y'z".

Definition quoted_handler : Cosmetic.CosmeticFilterHandler :=
  Cosmetic.add_filters Cosmetic.init
    (omap parse_cosmetic_filter ["##x\y'z"]).

(** [example.com##.ad-banner], as [parse_cosmetic_filter] builds it. *)
Definition banner_on_example : CosmeticFilter :=
  {| c_raw := "example.com##.ad-banner"; selector := ".ad-banner";
     c_is_exception := false; c_domains := {[ "example.com" ]};
     c_excluded_domains := ∅ |}.

(** [f] with other anchor flags, everything else as it is. *)
Definition with_anchors (f : NetworkFilter) (left right : bool)
  : NetworkFilter :=
  {| raw := raw f; pattern := pattern f; is_exception := is_exception f;
     is_hostname_anchor := is_hostname_anchor f;
     is_left_anchor := left; is_right_anchor := right;
     is_plain := is_plain f; is_regex := is_regex f; hostname := hostname f;
     third_party := third_party f; request_types := request_types f;
     excluded_types := excluded_types f;
     domains := domains f; excluded_domains := excluded_domains f;
     redirect := redirect f |}.



End Samples.

(** * Properties *)

(** ** Strings *)

Section StringFacts.

Lemma append_cons c s t : String c s +:+ t = String c (s +:+ t).
Proof. reflexivity. Qed.

Lemma append_nil_l s : EmptyString +:+ s = s.
Proof. reflexivity. Qed.

Lemma split_not_nil c s : Str.split c s ≠ [].
Proof.
  destruct s as [|d s]; simpl; [done|].
  destruct (Ascii.eqb d c); [done|]. by destruct (Str.split c s).
Qed.

Lemma join_cons sep p q qs :
  Str.join sep (p :: q :: qs) = p +:+ sep +:+ Str.join sep (q :: qs).
Proof. reflexivity. Qed.

Lemma join_push sep d q qs :
  Str.join sep (String d q :: qs) = String d (Str.join sep (q :: qs)).
Proof. by destruct qs. Qed.

Lemma join_split c s : Str.join (String c EmptyString) (Str.split c s) = s.
Proof.
  induction s as [|d s IH]; simpl; [done|].
  destruct (Ascii.eqb_spec d c) as [->|Hne].
  - destruct (Str.split c s) as [|q qs] eqn:E.
    + by apply split_not_nil in E.
    + rewrite join_cons, IH. reflexivity.
  - destruct (Str.split c s) as [|q qs] eqn:E.
    + by apply split_not_nil in E.
    + by rewrite join_push, IH.
Qed.

Lemma split_app c p h :
  Str.split c (p +:+ String c h) = Str.split c p ++ Str.split c h.
Proof.
  induction p as [|d p IH]; simpl.
  - by rewrite Ascii.eqb_refl.
  - destruct (Ascii.eqb d c); rewrite IH; [done|].
    destruct (Str.split c p) as [|q qs] eqn:E; [|done].
    by apply split_not_nil in E.
Qed.

Lemma str_take_drop n s : Str.take n s +:+ Str.drop n s = s.
Proof.
  revert s; induction n as [|n IH]; intros [|c s]; simpl; try done.
  by rewrite append_cons, IH.
Qed.

Lemma endswith_app p s : Str.endswith p s = true → ∃ q, s = q +:+ p.
Proof.
  unfold Str.endswith. intros [_ H]%andb_true_iff.
  apply String.eqb_eq in H.
  exists (Str.take (Str.len s - Str.len p) s).
  set (n := Str.len s - Str.len p) in *. clearbody n.
  subst p. symmetry. apply str_take_drop.
Qed.

Lemma suffixes_app {A} (l1 l2 : list A) : l2 ≠ [] → l2 ∈ Matcher.suffixes (l1 ++ l2).
Proof.
  intros Hne. induction l1 as [|x l1 IH]; simpl.
  - destruct l2; [done|]. simpl. apply list_elem_of_here.
  - by apply list_elem_of_further.
Qed.

Lemma suffixes_self {A} (l : list A) : l ≠ [] → l ∈ Matcher.suffixes l.
Proof. intros. by apply (suffixes_app []). Qed.

(** A hostname is a variant of itself and of each of its subdomains. *)
Lemma variant_of_subdomain host h :
  host = h ∨ Str.endswith ("." +:+ h) host = true →
  h ∈ Matcher._get_hostname_variants host.
Proof.
  unfold Matcher._get_hostname_variants. intros [->|[q ->]%endswith_app].
  - apply list_elem_of_fmap. exists (Str.split "." h). split.
    + by rewrite join_split.
    + apply suffixes_self, split_not_nil.
  - apply list_elem_of_fmap. exists (Str.split "." h). split.
    + by rewrite join_split.
    + change (q +:+ "." +:+ h) with (q +:+ String "." h).
      rewrite split_app. apply suffixes_app, split_not_nil.
Qed.

End StringFacts.

(** ** The matcher's containers *)

Section Containers.
Import Parser Matcher.

Lemma get_list_append_eq {A} (index : gmap string (list A)) key (f : A) :
  get_list (index_append index key f) key = get_list index key ++ [f].
Proof. unfold get_list at 1, index_append. by rewrite lookup_insert_eq. Qed.

Lemma get_list_append_ne {A} (index : gmap string (list A)) key key' (f : A) :
  key ≠ key' →
  get_list (index_append index key f) key' = get_list index key'.
Proof.
  intros Hne. unfold get_list, index_append. by rewrite lookup_insert_ne.
Qed.

Lemma get_list_append {A} (index : gmap string (list A)) key key' (f : A) :
  get_list (index_append index key f) key'
  = get_list index key' ++ (if String.eqb key' key then [f] else []).
Proof.
  destruct (String.eqb_spec key' key) as [->|Hne].
  - apply get_list_append_eq.
  - rewrite get_list_append_ne by done. by rewrite app_nil_r.
Qed.

(** One [_add_filter] appends [f] to the container of [f] and leaves the
    others as they are. *)
Lemma contents_add_filter m f c :
  contents (_add_filter m f) c
  = contents m c ++ (if in_container c f then [f] else []).
Proof.
  unfold _add_filter, in_container, container_of.
  destruct (index_key f) as [h|], (is_exception f), c as [[] |[] key];
    simpl; rewrite ?app_nil_r, ?get_list_append; done.
Qed.

Lemma contents_add_filters fs m c :
  contents (add_filters m fs) c = contents m c ++ List.filter (in_container c) fs.
Proof.
  unfold add_filters. revert m.
  induction fs as [|f fs IH]; intros m; simpl.
  - by rewrite app_nil_r.
  - rewrite IH, contents_add_filter, <- app_assoc. f_equal.
    by destruct (in_container c f).
Qed.

Lemma contents_foldl batches m c :
  contents (foldl add_filters m batches) c
  = contents m c ++ List.filter (in_container c) (concat batches).
Proof.
  revert m. induction batches as [|fs batches IH]; intros m; simpl.
  - by rewrite app_nil_r.
  - by rewrite IH, contents_add_filters, List.filter_app, app_assoc.
Qed.

Lemma contents_init c : contents init c = [].
Proof. by destruct c as [[]|[] key]. Qed.

Lemma contents_after_adding batches c :
  contents (after_adding batches) c
  = List.filter (in_container c) (concat batches).
Proof. unfold after_adding. by rewrite contents_foldl, contents_init. Qed.

Lemma in_container_of f : in_container (container_of f) f = true.
Proof.
  unfold in_container. destruct (container_of f) as [e|e k].
  - by destruct e.
  - rewrite String.eqb_refl. by destruct e.
Qed.

Lemma in_container_unique c f : in_container c f = true → c = container_of f.
Proof.
  unfold in_container. destruct c as [e|e k], (container_of f) as [e'|e' k'];
    try done.
  - by intros ->%Bool.eqb_prop.
  - intros [->%Bool.eqb_prop ->%String.eqb_eq]%andb_true_iff. done.
Qed.

Lemma container_indexed f e key :
  container_of f = Indexed e key →
  is_exception f = e ∧ is_hostname_anchor f = true ∧ hostname f = Some key
  ∧ key ≠ EmptyString.
Proof.
  unfold container_of, index_key.
  destruct (is_hostname_anchor f); [|done].
  destruct (hostname f) as [h|]; [|done].
  destruct h as [|a h]; simpl; [done|].
  intros [= <- <-]. done.
Qed.

Lemma container_generic f e :
  container_of f = Generic e →
  is_exception f = e
  ∧ (is_hostname_anchor f = false ∨ hostname f = None
     ∨ hostname f = Some EmptyString).
Proof.
  unfold container_of, index_key.
  destruct (is_hostname_anchor f); [|intros [= <-]; auto].
  destruct (hostname f) as [h|]; [|intros [= <-]; auto].
  destruct h as [|a h]; simpl; [intros [= <-]; auto|done].
Qed.

(** An added filter is stored in the container picked for it. *)
Lemma added_is_stored batches f :
  f ∈ concat batches → f ∈ contents (after_adding batches) (container_of f).
Proof.
  intros Hin. rewrite contents_after_adding.
  apply list_elem_of_In, List.filter_In. split.
  - by apply list_elem_of_In.
  - apply in_container_of.
Qed.

End Containers.

(** C10. After any sequence of [add_filters] calls each container holds, in
    the order of addition, exactly the added filters that
    [is_exception] and [is_hostname_anchor and hostname] send to it, so that
    every added filter lies in one container only; a filter found under a
    key of a hostname index is hostname-anchored and has that key, which is
    not empty, as its hostname, and a filter of a generic list has no anchor
    or no hostname. *)
Theorem index_partition (batches : list (list Parser.NetworkFilter)) :
  let m := Matcher.after_adding batches in
  (∀ c, Matcher.contents m c
        = List.filter (Matcher.in_container c) (concat batches))
  ∧ (∀ c f, Matcher.in_container c f = true ↔ c = Matcher.container_of f)
  ∧ (∀ e key,
       Forall (fun f =>
                 Parser.is_exception f = e
                 ∧ Parser.is_hostname_anchor f = true
                 ∧ Parser.hostname f = Some key ∧ key ≠ EmptyString)
         (Matcher.contents m (Matcher.Indexed e key)))
  ∧ (∀ e,
       Forall (fun f =>
                 Parser.is_exception f = e
                 ∧ (Parser.is_hostname_anchor f = false
                    ∨ Parser.hostname f = None
                    ∨ Parser.hostname f = Some EmptyString))
         (Matcher.contents m (Matcher.Generic e)))
  ∧ Matcher._total_filters m = length (concat batches).
Proof.
  intros m. split; [|split; [|split; [|split]]].
  - apply contents_after_adding.
  - intros c f. split; [apply in_container_unique|].
    intros ->. apply in_container_of.
  - intros e key. subst m. rewrite contents_after_adding.
    apply Forall_forall. intros f [_ Hc]%list_elem_of_In%List.filter_In.
    by apply container_indexed, eq_sym, in_container_unique.
  - intros e. subst m. rewrite contents_after_adding.
    apply Forall_forall. intros f [_ Hc]%list_elem_of_In%List.filter_In.
    by apply container_generic, eq_sym, in_container_unique.
  - subst m. unfold Matcher.after_adding.
    assert (∀ fs m, Matcher._total_filters (Matcher.add_filters m fs)
                    = Matcher._total_filters m + length fs) as Hfs.
    { induction fs as [|f fs IH]; intros m; simpl; [lia|].
      unfold Matcher.add_filters in *. simpl. rewrite IH.
      unfold Matcher._add_filter.
      destruct (Matcher.index_key f), (Parser.is_exception f); simpl; lia. }
    assert (∀ bs m, Matcher._total_filters (foldl Matcher.add_filters m bs)
                    = Matcher._total_filters m + length (concat bs)) as Hbs.
    { induction bs as [|fs bs IH]; intros m; simpl; [lia|].
      rewrite IH, Hfs, length_app. lia. }
    by rewrite Hbs.
Qed.

(** ** The two searches of [should_block] *)

Section Search.
Import Parser Matcher.

Variable urlparse_netloc : string -> option string.
Variable re_search_raw : string -> string -> option bool.

Local Abbreviation url_hostname := (url_hostname urlparse_netloc).
Local Abbreviation _pattern_matches := (_pattern_matches urlparse_netloc re_search_raw).
Local Abbreviation _filter_matches := (_filter_matches urlparse_netloc re_search_raw).
Local Abbreviation find_filter := (find_filter urlparse_netloc re_search_raw).
Local Abbreviation should_block := (should_block urlparse_netloc re_search_raw).
Local Abbreviation request_matches := (request_matches urlparse_netloc re_search_raw).

Lemma find_is_some {A} (p : A → bool) l x :
  x ∈ l → p x = true → is_Some (List.find p l).
Proof.
  intros Hin Hp. destruct (List.find p l) eqn:E; [eauto|].
  apply List.find_none with (x := x) in E; [congruence|].
  by apply list_elem_of_In.
Qed.

Lemma find_indexed_complete p index variants key f :
  key ∈ variants → f ∈ get_list index key → p f = true →
  is_Some (find_indexed p index variants).
Proof.
  intros Hkey Hf Hp. induction Hkey as [key rest|key key' rest _ IH]; simpl.
  - destruct (find_is_some p _ _ Hf Hp) as [g ->]. eauto.
  - destruct (List.find p (get_list index key')); eauto.
Qed.

Lemma find_indexed_sound p index variants f :
  find_indexed p index variants = Some f →
  p f = true ∧ ∃ key, f ∈ get_list index key.
Proof.
  induction variants as [|key rest IH]; simpl; [done|].
  destruct (List.find p (get_list index key)) as [g|] eqn:E; [|done].
  intros [= ->]. apply List.find_some in E as [Hin Hp].
  split; [done|]. exists key. by apply list_elem_of_In.
Qed.

Lemma filter_matches_pattern f url hostname request_type source third :
  _filter_matches f url hostname request_type source third = true →
  _pattern_matches f url = true.
Proof.
  unfold Matcher._filter_matches.
  repeat match goal with
         | |- (if ?b then false else _) = true → _ => destruct b; [done|]
         end.
  done.
Qed.

(** A hostname-anchored filter whose pattern matches is anchored at a
    variant of the URL's hostname. *)
Lemma pattern_matches_variant f url key host :
  is_hostname_anchor f = true → hostname f = Some key →
  url_hostname url = Some host → _pattern_matches f url = true →
  key ∈ _get_hostname_variants host.
Proof.
  intros Ha Hh Hu. unfold Matcher._pattern_matches. rewrite Ha, Hh, Hu. simpl.
  destruct (String.eqb_spec host key) as [->|Hne]; simpl.
  - intros _. apply variant_of_subdomain. by left.
  - destruct (Str.endswith ("." +:+ key) host) eqn:E; [|done].
    intros _. apply variant_of_subdomain. by right.
Qed.

(** Completeness of a search: a stored filter that matches the request is
    not passed over, whichever container holds it. *)
Lemma find_filter_complete batches e f url host request_type source :
  f ∈ concat batches → is_exception f = e →
  url_hostname url = Some host →
  _filter_matches f url host request_type source
    (_is_third_party host source) = true →
  is_Some
    (find_filter
       (if e then _exception_hostname_index (after_adding batches)
        else _hostname_index (after_adding batches))
       (if e then _generic_exceptions (after_adding batches)
        else _generic_filters (after_adding batches))
       url host request_type source (_is_third_party host source)).
Proof.
  intros Hadded He Hu Hm. apply added_is_stored in Hadded.
  unfold Matcher.find_filter.
  destruct (container_of f) as [e'|e' key] eqn:Hc.
  - apply container_generic in Hc as [He' _]. rewrite He in He'. subst e'.
    match goal with |- is_Some (match ?x with _ => _ end) => destruct x end;
      [eauto|].
    eapply find_is_some; [|exact Hm]. by destruct e.
  - apply container_indexed in Hc as (He' & Ha & Hh & _).
    rewrite He in He'. subst e'.
    pose proof (pattern_matches_variant _ _ _ _ Ha Hh Hu
                  (filter_matches_pattern _ _ _ _ _ _ Hm)) as Hkey.
    match goal with
    | |- is_Some (match ?x with _ => _ end) =>
        assert (is_Some x) as [g ->]; [|eauto]
    end.
    eapply find_indexed_complete; [exact Hkey| |exact Hm]. by destruct e.
Qed.

(** Soundness of the exception search: what it returns is a stored
    exception filter that matches. *)
Lemma find_exception_sound batches url host request_type source third f :
  _find_exception urlparse_netloc re_search_raw (after_adding batches)
    url host request_type source third = Some f →
  is_exception f = true
  ∧ _filter_matches f url host request_type source third = true.
Proof.
  unfold Matcher._find_exception, Matcher.find_filter.
  match goal with
  | |- match ?x with _ => _ end = _ → _ => destruct x as [g|] eqn:E
  end.
  - intros [= ->]. apply find_indexed_sound in E as [Hp [key Hin]].
    split; [|done].
    change (f ∈ contents (after_adding batches) (Indexed true key)) in Hin.
    rewrite contents_after_adding in Hin.
    apply list_elem_of_In, List.filter_In in Hin as [_ Hc].
    apply in_container_unique, eq_sym, container_indexed in Hc. tauto.
  - intros Hf. apply List.find_some in Hf as [Hin Hp]. split; [|done].
    apply list_elem_of_In in Hin.
    change (f ∈ contents (after_adding batches) (Generic true)) in Hin.
    rewrite contents_after_adding in Hin.
    apply list_elem_of_In, List.filter_In in Hin as [_ Hc].
    apply in_container_unique, eq_sym, container_generic in Hc. tauto.
Qed.

End Search.

(** C1. Whatever the sequence of [add_filters] calls that loaded the
    matcher: when an added blocking filter and an added exception filter
    both match a request, [should_block] answers with [blocked = False], no
    redirect, and a matching exception filter, that is, [Allow]. *)
Theorem exception_wins
    (urlparse_netloc : string → option string)
    (re_search_raw : string → string → option bool)
    (batches : list (list Parser.NetworkFilter))
    (url : string) (request_type : option Parser.RequestType)
    (source_hostname : option string) (B E : Parser.NetworkFilter) :
  B ∈ concat batches → E ∈ concat batches →
  Parser.is_exception B = false → Parser.is_exception E = true →
  Matcher.request_matches urlparse_netloc re_search_raw B url request_type
    source_hostname = true →
  Matcher.request_matches urlparse_netloc re_search_raw E url request_type
    source_hostname = true →
  Matcher.decide_request urlparse_netloc re_search_raw
    (Matcher.after_adding batches) url request_type source_hostname
  = Matcher.Allow
  ∧ ∃ exception,
      Matcher.should_block urlparse_netloc re_search_raw
        (Matcher.after_adding batches) url request_type source_hostname
      = {| Matcher.mr_blocked := false;
           Matcher.mr_filter := Some exception;
           Matcher.mr_redirect := None |}
      ∧ Parser.is_exception exception = true
      ∧ Matcher.request_matches urlparse_netloc re_search_raw exception url
          request_type source_hostname = true.
Proof.
  intros HB HE HBe HEe HBm HEm.
  unfold Matcher.decide_request, Matcher.should_block, Matcher.request_matches
    in *.
  destruct (Matcher.url_hostname urlparse_netloc url) as [host|] eqn:Hu;
    [|done].
  destruct (find_filter_complete urlparse_netloc re_search_raw batches false
              B url host request_type source_hostname HB HBe Hu HBm)
    as [b Hb].
  destruct (find_filter_complete urlparse_netloc re_search_raw batches true
              E url host request_type source_hostname HE HEe Hu HEm)
    as [x Hx].
  unfold Matcher._find_blocking_filter. rewrite Hb.
  pose proof (find_exception_sound urlparse_netloc re_search_raw batches
                url host request_type source_hostname _ x Hx) as [Hxe Hxm].
  unfold Matcher._find_exception in *. rewrite Hx.
  split; [done|]. exists x. done.
Qed.

Example parse_block_example :
  Parser.parse_network_filter "||example.com^" = Some Samples.block_example.
Proof. vm_compute. reflexivity. Qed.

Example parse_allow_example :
  Parser.parse_network_filter "@@||example.com/allowed^"
  = Some Samples.allow_example.
Proof. vm_compute. reflexivity. Qed.

Example parse_only_on_b :
  Parser.parse_network_filter "||a.com^$domain=b.com" = Some Samples.only_on_b.
Proof. vm_compute. reflexivity. Qed.

Lemma exception_wins_witness :
  let batches := [[Samples.block_example]; [Samples.allow_example]] in
  let url := "https://example.com/allowed" in
  Samples.block_example ∈ concat batches
  ∧ Samples.allow_example ∈ concat batches
  ∧ Matcher.request_matches Url.netloc Samples.no_raw_regex
      Samples.block_example url None None = true
  ∧ Matcher.request_matches Url.netloc Samples.no_raw_regex
      Samples.allow_example url None None = true
  ∧ Matcher.decide_request Url.netloc Samples.no_raw_regex
      (Matcher.after_adding batches) url None None = Matcher.Allow.
Proof.
  intros batches url.
  assert (Samples.block_example ∈ concat batches) as HB
    by apply list_elem_of_here.
  assert (Samples.allow_example ∈ concat batches) as HE
    by apply list_elem_of_further, list_elem_of_here.
  assert (Matcher.request_matches Url.netloc Samples.no_raw_regex
            Samples.block_example url None None = true) as HBm
    by (vm_compute; reflexivity).
  assert (Matcher.request_matches Url.netloc Samples.no_raw_regex
            Samples.allow_example url None None = true) as HEm
    by (vm_compute; reflexivity).
  split; [exact HB|]. split; [exact HE|]. split; [exact HBm|].
  split; [exact HEm|].
  exact (proj1 (exception_wins Url.netloc Samples.no_raw_regex batches url
                  None None Samples.block_example Samples.allow_example
                  HB HE eq_refl eq_refl HBm HEm)).
Defined.

(** ** The match predicate and the source hostname *)

(** C3, as the code has it. When a filter matches a request whose source
    hostname is given and not empty, no dot-suffix variant of the
    lower-cased source hostname is in [excluded_domains], and if [domains]
    is not empty one of the variants is in it.  When the source hostname is
    absent or empty the two sets are not looked at: the filter matches
    whatever they hold. *)
Theorem domain_constraints
    (urlparse_netloc : string → option string)
    (re_search_raw : string → string → option bool)
    (f : Parser.NetworkFilter) (url hostname : string)
    (request_type : option Parser.RequestType)
    (source_hostname : option string) (is_third_party : bool) :
  Matcher._filter_matches urlparse_netloc re_search_raw f url hostname
    request_type source_hostname is_third_party = true →
  match Matcher.source_given source_hostname with
  | Some source =>
      let variants := Matcher._get_hostname_variants (Str.lower source) in
      (∀ variant, variant ∈ variants → variant ∉ Parser.excluded_domains f)
      ∧ (Parser.domains f ≠ ∅ →
         ∃ variant, variant ∈ variants ∧ variant ∈ Parser.domains f)
  | None =>
      ∀ inc exc,
        Matcher._filter_matches urlparse_netloc re_search_raw
          (Samples.with_domains f inc exc) url hostname request_type
          source_hostname is_third_party = true
  end.
Proof.
  destruct (Matcher.source_given source_hostname) as [source|] eqn:Hs;
    [|intros Hp inc exc; unfold Matcher._filter_matches in *;
      rewrite Hs in *; exact Hp].
  unfold Matcher._filter_matches. rewrite Hs.
  destruct (negb (Matcher.third_party_ok f is_third_party)) eqn:E1; [done|].
  destruct (negb (Matcher.is_empty_set (Parser.request_types f))
            && negb (Matcher.type_in request_type (Parser.request_types f)))
    eqn:E2; [done|].
  destruct (Matcher.type_in request_type (Parser.excluded_types f)) eqn:E3;
    [done|].
  - destruct (Matcher._domain_matches source (Parser.domains f)
                (Parser.excluded_domains f)) eqn:Hd; [|done].
    intros _. simpl. unfold Matcher._domain_matches in Hd.
    unfold Matcher.is_empty_set in Hd.
    destruct (bool_decide_reflect (Parser.domains f = ∅)) as [Hinc|Hinc];
      destruct (bool_decide_reflect (Parser.excluded_domains f = ∅))
        as [Hexc|Hexc]; simpl in Hd.
    + split; [|done]. intros v _. rewrite Hexc. set_solver.
    + destruct (existsb _ _) eqn:Hex in Hd; [done|]. split; [|done].
      intros v Hv Hin.
      assert (existsb
                (λ variant, bool_decide (variant ∈ Parser.excluded_domains f))
                (Matcher._get_hostname_variants (Str.lower source)) = true)
        as Habs; [|congruence].
      apply existsb_exists. exists v. split; [by apply list_elem_of_In|].
      by apply bool_decide_eq_true.
    + destruct (existsb _ _) eqn:Hex in Hd; [done|]. split.
      * intros v _. rewrite Hexc. set_solver.
      * intros _. apply existsb_exists in Hd as (v & Hv & Hin).
        exists v. split; [by apply list_elem_of_In|].
        by apply bool_decide_eq_true in Hin.
    + destruct (existsb _ _) eqn:Hex in Hd; [done|]. split.
      * intros v Hv Hin.
        assert (existsb
                  (λ variant,
                     bool_decide (variant ∈ Parser.excluded_domains f))
                  (Matcher._get_hostname_variants (Str.lower source)) = true)
          as Habs; [|congruence].
        apply existsb_exists. exists v. split; [by apply list_elem_of_In|].
        by apply bool_decide_eq_true.
      * intros _. apply existsb_exists in Hd as (v & Hv & Hin).
        exists v. split; [by apply list_elem_of_In|].
        by apply bool_decide_eq_true in Hin.
Qed.

Lemma domain_constraints_witness :
  let url := "https://a.com/x" in
  Matcher._filter_matches Url.netloc Samples.no_raw_regex Samples.only_on_b
    url "a.com" None (Some "B.com") true = true
  ∧ ∃ variant,
      variant ∈ Matcher._get_hostname_variants "b.com"
      ∧ variant ∈ Parser.domains Samples.only_on_b.
Proof.
  intros url.
  assert (Matcher._filter_matches Url.netloc Samples.no_raw_regex
            Samples.only_on_b url "a.com" None (Some "B.com") true = true)
    as Hm by (vm_compute; reflexivity).
  split; [exact Hm|].
  refine (proj2 (domain_constraints Url.netloc Samples.no_raw_regex
                   Samples.only_on_b url "a.com" None (Some "B.com") true Hm)
            _).
  intros Heq. apply (f_equal (fun s => bool_decide ("b.com" ∈ s))) in Heq.
  vm_compute in Heq. discriminate Heq.
Defined.

(** C3 does not hold for an absent source hostname: the filter
    ["||a.com^$domain=b.com"] matches, and blocks, a request that names no
    source. *)
Lemma domain_constraints_skipped_without_source :
  Parser.domains Samples.only_on_b = {[ "b.com" ]}
  ∧ Matcher.request_matches Url.netloc Samples.no_raw_regex Samples.only_on_b
      "https://a.com/x" None None = true
  ∧ Matcher.decide_request Url.netloc Samples.no_raw_regex
      (Matcher.matcher_of ["||a.com^$domain=b.com"]) "https://a.com/x"
      None None = Matcher.Block.
Proof. split; [reflexivity|]. split; vm_compute; reflexivity. Qed.

(** ** Worked requests *)

(** C4. With only ["||ads.com^"] loaded, [should_block] blocks
    ["https://ads.com/x"] and ["https://sub.ads.com/x"] and lets
    ["https://notads.com/x"] through, whatever the request type and the
    source hostname (in particular with both left out). *)
Theorem hostname_anchor_blocks_subdomains
    (re_search_raw : string → string → option bool)
    (request_type : option Parser.RequestType)
    (source_hostname : option string) :
  let decide :=
    Matcher.decide_request Url.netloc re_search_raw
      (Matcher.matcher_of ["||ads.com^"]) in
  decide "https://ads.com/x" request_type source_hostname = Matcher.Block
  ∧ decide "https://sub.ads.com/x" request_type source_hostname
    = Matcher.Block
  ∧ decide "https://notads.com/x" request_type source_hostname
    = Matcher.Allow.
Proof.
  destruct request_type as [[]|], source_hostname as [[|a s]|];
    vm_compute; repeat split; reflexivity.
Qed.

(** C2 does not hold for the source ["example.com"]: it shares the last two
    labels with ["ads.example.com"], the request is first-party and the
    [third-party] filter lets it through. *)
Lemma same_site_source_not_blocked :
  Matcher._is_third_party "ads.example.com" (Some "example.com") = false
  ∧ Matcher.decide_request Url.netloc Samples.no_raw_regex
      (Matcher.matcher_of ["||ads.example.com^$third-party,script"])
      "https://ads.example.com/x.js" (Some Parser.SCRIPT)
      (Some "example.com") = Matcher.Allow
  ∧ Matcher.decide_request Url.netloc Samples.no_raw_regex
      (Matcher.matcher_of ["||ads.example.com^$third-party,script"])
      "https://ads.example.com/x.js" (Some Parser.SCRIPT)
      (Some "example.com") ≠ Matcher.Block.
Proof.
  split; [reflexivity|]. split; [vm_compute; reflexivity|].
  vm_compute. discriminate.
Qed.

(** C2, as the code has it. The line parses to a filter with hostname
    ["ads.example.com"], [third_party = True] and [request_types =
    {SCRIPT}]; with only that filter loaded, a [SCRIPT] request for
    ["https://ads.example.com/x.js"] is blocked exactly when
    [_is_third_party] holds for its source hostname: it is let through for
    the sources ["ads.example.com"] and ["example.com"] and for an absent
    source, and blocked for a source of another site such as
    ["other.org"]. *)
Theorem third_party_script_filter
    (re_search_raw : string → string → option bool)
    (source_hostname : option string) :
  let line := "||ads.example.com^$third-party,script" in
  let decide :=
    Matcher.decide_request Url.netloc re_search_raw
      (Matcher.matcher_of [line]) "https://ads.example.com/x.js"
      (Some Parser.SCRIPT) in
  (∃ f, Parser.parse_network_filter line = Some f
        ∧ Parser.hostname f = Some "ads.example.com"
        ∧ Parser.third_party f = Some true
        ∧ Parser.request_types f = {[ Parser.SCRIPT ]})
  ∧ decide source_hostname
    = (if Matcher._is_third_party "ads.example.com" source_hostname
       then Matcher.Block else Matcher.Allow)
  ∧ decide (Some "ads.example.com") = Matcher.Allow
  ∧ decide (Some "example.com") = Matcher.Allow
  ∧ decide None = Matcher.Allow
  ∧ decide (Some "other.org") = Matcher.Block.
Proof.
  intros line decide. split.
  { eexists. split; [vm_compute; reflexivity|]. repeat split. }
  split; [|subst decide line; vm_compute; repeat split; reflexivity].
  subst decide line. unfold Matcher.decide_request, Matcher.should_block.
  change (Matcher.url_hostname Url.netloc "https://ads.example.com/x.js")
    with (Some "ads.example.com").
  cbv beta iota zeta.
  unfold Matcher._find_blocking_filter, Matcher._find_exception,
    Matcher.find_filter.
  destruct source_hostname as [[|a s]|]; [vm_compute; reflexivity| |
                                          vm_compute; reflexivity].
  generalize (Matcher._is_third_party "ads.example.com" (Some (String a s))).
  intros [|]; vm_compute; reflexivity.
Qed.

(** ** The route handler and its counters *)

(** C5 does not hold for a redirect to a name that has no resource: the
    decision is a redirect, the request is aborted, [requests_blocked] goes
    up and [requests_redirected] does not. *)
Lemma unknown_redirect_is_blocked :
  let e := Samples.engine_of ["||a.com^$redirect=unknown-resource"] in
  let route := Samples.script_request "https://a.com/x" in
  let after := Engine._handle_route Url.netloc Samples.no_raw_regex e route in
  Matcher.decision (Engine.route_result Url.netloc Samples.no_raw_regex e route)
  = Matcher.Redirect "unknown-resource"
  ∧ after.2 = [Engine.abort "blockedbyclient"]
  ∧ Engine._requests_blocked after.1 = 1
  ∧ Engine._requests_redirected after.1 = 0.
Proof. vm_compute. repeat split; reflexivity. Qed.

(** C5, as the code has it. A request whose URL is not http(s) is passed on
    and not counted.  Any other request adds one to [requests_checked], and
    then: an [Allow] decision passes the request on and adds nothing more; a
    [Block] decision aborts it and adds one to [requests_blocked]; a
    [Redirect] decision whose name has a resource adds one to
    [requests_redirected] and serves the resource, and if serving fails the
    request is aborted and [requests_blocked] goes up as well; a [Redirect]
    decision whose name has no resource aborts the request and adds one to
    [requests_blocked] only. *)
Theorem handle_route_counters
    (urlparse_netloc : string → option string)
    (re_search_raw : string → string → option bool)
    (e : Engine.AdblockEngine) (route : Engine.Route) :
  let after := Engine._handle_route urlparse_netloc re_search_raw e route in
  let e' := after.1 in
  let calls := after.2 in
  let same_blocked := Engine._requests_blocked e' = Engine._requests_blocked e in
  let more_blocked :=
    Engine._requests_blocked e' = Engine._requests_blocked e + 1 in
  let same_redirected :=
    Engine._requests_redirected e' = Engine._requests_redirected e in
  let more_redirected :=
    Engine._requests_redirected e' = Engine._requests_redirected e + 1 in
  let stop := Engine.abort "blockedbyclient" in
  Engine._network_matcher e' = Engine._network_matcher e
  ∧ if Engine.is_http (Engine.url route) then
      Engine._requests_checked e' = Engine._requests_checked e + 1
      ∧ match Matcher.decision
                (Engine.route_result urlparse_netloc re_search_raw e route)
        with
        | Matcher.Allow =>
            same_blocked ∧ same_redirected ∧ calls = [Engine.continue_]
        | Matcher.Block => more_blocked ∧ same_redirected ∧ calls = [stop]
        | Matcher.Redirect name =>
            match Resources.get_redirect_resource name with
            | Some (content, content_type) =>
                let serve := Engine.fulfill content content_type 200 in
                more_redirected
                ∧ if Engine.fulfill_succeeds route
                  then same_blocked ∧ calls = [serve]
                  else more_blocked ∧ calls = [serve; stop]
            | None => more_blocked ∧ same_redirected ∧ calls = [stop]
            end
        end
    else e' = e ∧ calls = [Engine.continue_].
Proof.
  unfold Engine._handle_route.
  destruct (Engine.is_http (Engine.url route)); simpl; [|done].
  change (Engine.route_result urlparse_netloc re_search_raw
            (Engine.checked e) route)
    with (Engine.route_result urlparse_netloc re_search_raw e route).
  unfold Matcher.decision.
  destruct (Matcher.mr_blocked (Engine.route_result _ _ e route)); [|done].
  destruct (Matcher.mr_redirect (Engine.route_result _ _ e route))
    as [name|]; [|done].
  destruct (Str.truthy name); [|done].
  destruct (Resources.get_redirect_resource name) as [[content ctype]|];
    [|done].
  destruct (Engine.fulfill_succeeds route); done.
Qed.

(** ** Scriptlets *)

Section ScriptletFacts.
Import Parser Scriptlets.

Variable SCRIPTLETS : gmap string string.

Lemma index_under_empty {A} (index : gmap string (list A)) (f : A) :
  Cosmetic.index_under index ∅ f = index.
Proof. unfold Cosmetic.index_under. by rewrite elements_empty. Qed.

Lemma domain_matches_needs_domain hostname excluded :
  _domain_matches hostname ∅ excluded = false.
Proof.
  unfold _domain_matches.
  destruct (existsb _ _); [done|].
  unfold Matcher.is_empty_set. by rewrite bool_decide_eq_true_2.
Qed.

Lemma emit_needs_domain hostname f :
  s_domains f = ∅ → emit SCRIPTLETS hostname f = None.
Proof.
  intros Hd. unfold emit. by rewrite Hd, domain_matches_needs_domain.
Qed.

Lemma emitted_has_script h hostname f script :
  (f, script) ∈ emitted SCRIPTLETS h hostname →
  emit SCRIPTLETS (Str.lower hostname) f = Some script.
Proof.
  unfold emitted. intros (g & Hg & Hm)%list_elem_of_omap.
  destruct (emit SCRIPTLETS (Str.lower hostname) g) as [s|] eqn:E; [|done].
  simpl in Hm. injection Hm as -> ->. done.
Qed.

End ScriptletFacts.

(** C7. A scriptlet filter with no included domain is never emitted: adding
    it leaves the index, and so the scripts of every hostname, as they were,
    and no handler, however it was filled, appends a script for it. *)
Theorem scriptlet_without_domain_never_emitted
    (SCRIPTLETS : gmap string string) (f : Parser.ScriptletFilter) :
  Parser.s_domains f = ∅ →
  (∀ h hostname,
     Scriptlets._domain_scriptlets (Scriptlets._add_filter h f)
     = Scriptlets._domain_scriptlets h
     ∧ Scriptlets.get_scripts_for_domain SCRIPTLETS
         (Scriptlets._add_filter h f) hostname
       = Scriptlets.get_scripts_for_domain SCRIPTLETS h hostname)
  ∧ (∀ h hostname script,
       (f, script) ∉ Scriptlets.emitted SCRIPTLETS h hostname).
Proof.
  intros Hd. split.
  - intros h hostname.
    assert (Scriptlets._domain_scriptlets (Scriptlets._add_filter h f)
            = Scriptlets._domain_scriptlets h) as Hidx.
    { unfold Scriptlets._add_filter. simpl. rewrite Hd.
      apply index_under_empty. }
    split; [exact Hidx|].
    unfold Scriptlets.get_scripts_for_domain, Scriptlets.emitted,
      Scriptlets.indexed.
    by rewrite Hidx.
  - intros h hostname script Hin.
    apply emitted_has_script in Hin.
    by rewrite emit_needs_domain in Hin.
Qed.

Lemma scriptlet_without_domain_witness :
  let h := Scriptlets.add_filters Scriptlets.init [Samples.defuser_on_example] in
  Parser.s_domains Samples.defuser_everywhere = ∅
  ∧ Scriptlets.get_scripts_for_domain Samples.name_defuser_registry
      (Scriptlets._add_filter h Samples.defuser_everywhere) "example.com"
    = Scriptlets.get_scripts_for_domain Samples.name_defuser_registry h
        "example.com".
Proof.
  intros h. split; [reflexivity|].
  exact (proj2 (proj1 (scriptlet_without_domain_never_emitted
                         Samples.name_defuser_registry
                         Samples.defuser_everywhere eq_refl)
                  h "example.com")).
Defined.

Example scriptlet_on_example :
  length (Scriptlets.get_scripts_for_domain Samples.name_defuser_registry
            (Scriptlets.add_filters Scriptlets.init
               [Samples.defuser_on_example; Samples.defuser_everywhere])
            "www.example.com") = 1.
Proof. vm_compute. reflexivity. Qed.

(** ** The style sheet of a hostname *)

Section Batches.

Lemma chunks_concat {A} (size count : nat) (l : list A) :
  length l ≤ count * size →
  concat ((fun k => take size (drop (k * size) l)) <$> seq 0 count) = l.
Proof.
  revert l. induction count as [|count IH]; intros l Hlen.
  - simpl in *. by destruct l; [|simpl in Hlen; lia].
  - simpl seq. rewrite <- seq_shift, fmap_cons. simpl concat.
    rewrite <- list_fmap_compose.
    transitivity (take size l ++ drop size l); [|apply take_drop].
    f_equal.
    rewrite <- (IH (drop size l)) at 1.
    + f_equal. apply list_fmap_ext. intros _ k _. simpl.
      by rewrite drop_drop.
    + rewrite length_drop. lia.
Qed.

Lemma range_step_count (n : nat) :
  n ≤ (n + Cosmetic.batch_size - 1) / Cosmetic.batch_size * Cosmetic.batch_size.
Proof.
  unfold Cosmetic.batch_size.
  pose proof (Nat.div_mod_eq (n + 100 - 1) 100) as Hdiv.
  pose proof (Nat.mod_upper_bound (n + 100 - 1) 100) as Hmod.
  lia.
Qed.

Lemma batches_concat (selectors : list string) :
  concat (Cosmetic.batches selectors) = selectors.
Proof.
  unfold Cosmetic.batches, Cosmetic.range_step.
  rewrite <- list_fmap_compose. apply chunks_concat, range_step_count.
Qed.

Lemma batches_sizes (selectors : list string) :
  Forall (fun batch => 1 ≤ length batch ≤ Cosmetic.batch_size)
    (Cosmetic.batches selectors).
Proof.
  unfold Cosmetic.batches, Cosmetic.range_step.
  rewrite <- list_fmap_compose. apply Forall_fmap, Forall_forall.
  intros k Hk%list_elem_of_In%in_seq. simpl.
  rewrite length_take, length_drop.
  unfold Cosmetic.batch_size in *.
  pose proof (Nat.div_mod_eq (length selectors + 100 - 1) 100) as Hdiv.
  pose proof (Nat.mod_upper_bound (length selectors + 100 - 1) 100) as Hmod.
  lia.
Qed.

Lemma skipped_iff sel :
  Cosmetic.skipped sel = true
  ↔ Str.has_char Cosmetic.double_quote sel = true
    ∨ (Str.has_char Cosmetic.single_quote sel = true
       ∧ Str.has_char Cosmetic.backslash sel = false).
Proof.
  unfold Cosmetic.skipped.
  rewrite orb_true_iff, andb_true_iff, negb_true_iff. done.
Qed.

End Batches.

(** C6 does not hold for the selector [x\y'z]: its single quote is not
    escaped (the backslash escapes the [y]), yet the selector is kept and
    reaches the style sheet. *)
Lemma unescaped_quote_kept :
  Spec.has_unescaped_quote Samples.quoted_selector = true
  ∧ Cosmetic.get_selectors_for_domain Samples.quoted_handler "example.com"
    = [Samples.quoted_selector]
  ∧ Cosmetic.skipped Samples.quoted_selector = false
  ∧ Cosmetic.get_css_for_domain Samples.quoted_handler "example.com"
    = Samples.quoted_selector +:+ " { display: none !important; }".
Proof. vm_compute. repeat split; reflexivity. Qed.

(** C6, as the code has it. The selectors of a hostname are cut, in order,
    into batches of at least 1 and at most 100; from each batch exactly the
    selectors that contain a double quote, or a single quote and no
    backslash, are dropped; a batch with survivors gives the rule
    [<survivors joined by ", "> { display: none !important; }] and a batch
    without survivors gives none; the rules are joined by newlines; without
    selectors the result is the empty string. *)
Theorem css_for_domain_batches
    (h : Cosmetic.CosmeticFilterHandler) (hostname : string) :
  let selectors := Cosmetic.get_selectors_for_domain h hostname in
  let batches := Cosmetic.batches selectors in
  let survivors batch :=
    List.filter
      (fun sel =>
         negb (Str.has_char Cosmetic.double_quote sel
               || (Str.has_char Cosmetic.single_quote sel
                   && negb (Str.has_char Cosmetic.backslash sel))))
      batch in
  let rule safe := Str.join ", " safe +:+ " { display: none !important; }" in
  concat batches = selectors
  ∧ Forall (fun batch => 1 ≤ length batch ≤ 100) batches
  ∧ Cosmetic.get_css_for_domain h hostname
    = Str.join Cosmetic.newline_string
        (rule <$> List.filter (fun safe => negb (bool_decide (safe = [])))
                    (survivors <$> batches))
  ∧ (selectors = [] →
     Cosmetic.get_css_for_domain h hostname = EmptyString).
Proof.
  intros selectors batches survivors rule.
  split; [apply batches_concat|]. split; [apply batches_sizes|].
  unfold Cosmetic.get_css_for_domain. fold selectors.
  split; [|by intros ->].
  destruct selectors as [|sel rest] eqn:E; [reflexivity|].
  reflexivity.
Qed.

(** ** The cosmetic parser *)

Section CosmeticParser.
Import Parser.

Lemma after_first_find sep s :
  Spec.after_first sep s
  = (fun i => Str.drop (i + Str.len sep) s) <$> Str.find sep s.
Proof.
  induction s as [|c s IH]; simpl.
  - by destruct (Str.startswith sep EmptyString).
  - destruct (Str.startswith sep (String c s)); [done|].
    rewrite IH. by destruct (Str.find sep s).
Qed.

(** What [parse_cosmetic_filter] does with the selector that the line
    carries. *)
Lemma parse_cosmetic_cases line :
  match Spec.selector_text line with
  | None => parse_cosmetic_filter line = None
  | Some sel =>
      if Str.is_empty sel
         || existsb (fun prefix => Str.startswith prefix sel)
              procedural_prefixes
      then parse_cosmetic_filter line = None
      else ∃ f, parse_cosmetic_filter line = Some f ∧ selector f = sel
  end.
Proof.
  unfold Spec.selector_text, parse_cosmetic_filter, Str.contains,
    Str.split_once.
  rewrite !after_first_find.
  destruct (Str.find "#@#" line) as [i|] eqn:E1;
    cbv beta iota zeta delta [fmap option_fmap option_map];
    rewrite ?E1; cbv beta iota zeta.
  - destruct (Str.is_empty _); cbv beta iota delta [orb]; [done|].
    destruct (existsb _ procedural_prefixes); [done|].
    destruct (if Str.truthy _ then _ else _). eauto.
  - destruct (Str.find "##" line) as [i|] eqn:E2; cbv beta iota zeta;
      rewrite ?E2; cbv beta iota zeta; [|done].
    destruct (Str.is_empty _); cbv beta iota delta [orb]; [done|].
    destruct (existsb _ procedural_prefixes); [done|].
    destruct (if Str.truthy _ then _ else _). eauto.
Qed.

End CosmeticParser.

(** C8 does not hold for a line whose selector has the construct further
    in: [example.com##div:has(.ad)] gives a record with the selector
    [div:has(.ad)]. *)
Lemma procedural_selector_kept :
  ∃ f, Parser.parse_cosmetic_filter "example.com##div:has(.ad)" = Some f
       ∧ Parser.selector f = "div:has(.ad)"
       ∧ Spec.uses_procedural (Parser.selector f) = true.
Proof. eexists. split; [vm_compute; reflexivity|]. split; reflexivity. Qed.

(** C8, as the code has it. A record that [parse_cosmetic_filter] returns
    holds the trimmed text after the first separator of the line, which is
    not empty and does not start with [:has(], [:xpath(], [:not(],
    [:matches-css(] or [+js(]; for every line whose selector starts with
    one of them the parser returns none. *)
Theorem cosmetic_selector_not_prefixed (line : string) :
  (∀ f, Parser.parse_cosmetic_filter line = Some f →
        Spec.selector_text line = Some (Parser.selector f)
        ∧ Str.is_empty (Parser.selector f) = false
        ∧ Forall (fun prefix =>
                    Str.startswith prefix (Parser.selector f) = false)
            Parser.procedural_prefixes)
  ∧ (∀ sel prefix,
       Spec.selector_text line = Some sel →
       prefix ∈ Parser.procedural_prefixes →
       Str.startswith prefix sel = true →
       Parser.parse_cosmetic_filter line = None).
Proof.
  pose proof (parse_cosmetic_cases line) as Hcases.
  destruct (Spec.selector_text line) as [sel|]; [|split; [congruence|done]].
  destruct (Str.is_empty sel) eqn:Hempty; cbv beta iota delta [orb] in Hcases.
  { split; [congruence|]. intros; done. }
  destruct (existsb _ Parser.procedural_prefixes) eqn:Hprefix.
  { split; [congruence|]. intros; done. }
  destruct Hcases as (g & Hg & Hsel). split.
  - intros f Hf. rewrite Hg in Hf. injection Hf as <-. rewrite Hsel.
    split; [done|]. split; [done|].
    apply Forall_forall. intros prefix Hin.
    destruct (Str.startswith prefix sel) eqn:E; [|done].
    assert (existsb (λ prefix, Str.startswith prefix sel)
              Parser.procedural_prefixes = true) as Habs; [|congruence].
    apply existsb_exists. exists prefix. split; [|done].
    by apply list_elem_of_In.
  - intros sel' prefix [= <-] Hin Hstart.
    assert (existsb (λ prefix, Str.startswith prefix sel)
              Parser.procedural_prefixes = true) as Habs; [|congruence].
    apply existsb_exists. exists prefix. split; [|done].
    by apply list_elem_of_In.
Qed.

Example parse_banner_on_example :
  Parser.parse_cosmetic_filter "example.com##.ad-banner"
  = Some Samples.banner_on_example.
Proof. vm_compute. reflexivity. Qed.

Lemma cosmetic_selector_witness :
  Parser.parse_cosmetic_filter "example.com##.ad-banner"
  = Some Samples.banner_on_example
  ∧ Spec.selector_text "example.com##.ad-banner" = Some ".ad-banner"
  ∧ Str.is_empty ".ad-banner" = false.
Proof.
  assert (Parser.parse_cosmetic_filter "example.com##.ad-banner"
          = Some Samples.banner_on_example) as Hp by (vm_compute; reflexivity).
  split; [exact Hp|].
  pose proof (proj1 (cosmetic_selector_not_prefixed "example.com##.ad-banner")
                Samples.banner_on_example Hp) as (H1 & H2 & _).
  split; [exact H1|exact H2].
Defined.

(** ** The network parser *)

Section NetworkParser.
Import Parser.

Lemma contains_char c s : Str.contains (String c EmptyString) s = Str.has_char c s.
Proof.
  unfold Str.contains. induction s as [|d s IH]; simpl; [done|].
  rewrite (Ascii.eqb_sym c d), andb_true_r.
  destruct (Ascii.eqb d c); simpl; [done|].
  rewrite <- IH. by destruct (Str.find (String c EmptyString) s).
Qed.

Lemma rfind_char_none c s : Str.has_char c s = false → Str.rfind_char c s = None.
Proof.
  induction s as [|d s IH]; simpl; [done|].
  intros [Hd Hs]%orb_false_iff. by rewrite IH, Hd.
Qed.

Lemma find_char_from_none c s i :
  Str.has_char c s = false → Str.find_char_from c s i = None.
Proof.
  revert i. induction s as [|d s IH]; intros i; simpl.
  - by destruct i.
  - intros [Hd Hs]%orb_false_iff. destruct i; simpl; rewrite ?Hd, IH; done.
Qed.

Lemma has_char_drop c n s :
  Str.has_char c s = false → Str.has_char c (Str.drop n s) = false.
Proof.
  revert s. induction n as [|n IH]; intros [|d s]; simpl; try done.
  intros [_ Hs]%orb_false_iff. by apply IH.
Qed.

Lemma cut_last_rfind c s :
  Spec.cut_last c s
  = (fun i => (Str.take i s, Str.drop (S i) s)) <$> Str.rfind_char c s.
Proof.
  induction s as [|d s IH]; simpl; [done|].
  rewrite IH. destruct (Str.rfind_char c s); simpl; [done|].
  by destruct (Ascii.eqb d c).
Qed.

Lemma cut_first_find c s :
  Spec.cut_first c s
  = (fun j => (Str.take j s, Str.drop (S j) s)) <$> Str.find_char_from c s 0.
Proof.
  induction s as [|d s IH]; simpl; [done|].
  destruct (Ascii.eqb d c); [done|].
  rewrite IH. by destruct (Str.find_char_from c s 0).
Qed.

Lemma find_char_from_drop c s i :
  Str.find_char_from c s i
  = (fun j => i + j) <$> Str.find_char_from c (Str.drop i s) 0.
Proof.
  revert s. induction i as [|i IH]; intros s.
  - simpl. by destruct (Str.find_char_from c s 0).
  - destruct s as [|d s]; simpl; [done|].
    rewrite IH. by destruct (Str.find_char_from c (Str.drop i s) 0).
Qed.

Lemma take_add i k s :
  Str.take (i + k) s = Str.take i s +:+ Str.take k (Str.drop i s).
Proof.
  revert s. induction i as [|i IH]; intros s; simpl; [done|].
  destruct s as [|d s]; simpl.
  - by destruct k.
  - by rewrite append_cons, IH.
Qed.

(** At the index that [rfind] reports the string has the character. *)
Lemma rfind_char_drop c s i :
  Str.rfind_char c s = Some i →
  Str.drop i s = String c (Str.drop (S i) s).
Proof.
  revert i. induction s as [|d s IH]; intros i; simpl; [done|].
  destruct (Str.rfind_char c s) as [j|].
  - intros [= <-]. by apply IH.
  - destruct (Ascii.eqb_spec d c) as [->|]; [|done]. by intros [= <-].
Qed.

Lemma startswith_rfind c s :
  Str.startswith (String c EmptyString) s = true →
  is_Some (Str.rfind_char c s).
Proof.
  destruct s as [|d s]; simpl; [done|].
  rewrite andb_true_r, (Ascii.eqb_sym c d). intros ->.
  destruct (Str.rfind_char c s); eauto.
Qed.

Lemma modifier_pos_none line :
  Str.has_char "$" line = false → modifier_pos line = None.
Proof.
  intros H. unfold modifier_pos.
  destruct (_ && _); [by apply find_char_from_none|by apply rfind_char_none].
Qed.

(** The pattern that the modifier block leaves is the text that the
    specification describes. *)
Lemma split_modifiers_pattern line :
  (split_modifiers (after_exception line)).2 = Spec.pattern_text line.
Proof.
  unfold Spec.pattern_text, split_modifiers, after_exception,
    Spec.looks_like_regex.
  set (l := if Str.startswith "@@" line then Str.drop 2 line else line).
  assert ((if Str.contains "$" l
           then match modifier_pos l with
                | Some p => (Str.drop (p + 1) l, Str.take p l)
                | None => (EmptyString, l)
                end
           else (EmptyString, l)).2
          = match modifier_pos l with
            | Some p => Str.take p l
            | None => l
            end) as ->.
  { rewrite contains_char. destruct (Str.has_char "$" l) eqn:E.
    - by destruct (modifier_pos l).
    - by rewrite modifier_pos_none. }
  unfold modifier_pos.
  destruct (Str.startswith "/" l && (2 <=? Str.count_char "/" l)) eqn:Hre.
  - apply andb_true_iff in Hre as [Hstart _].
    destruct (startswith_rfind _ _ Hstart) as [i Hi].
    pose proof (rfind_char_drop _ _ _ Hi) as Hd.
    rewrite cut_last_rfind, Hi.
    cbv beta iota delta [fmap option_fmap option_map].
    rewrite find_char_from_drop, Hd.
    set (t := Str.drop (S i) l) in *.
    change (Str.find_char_from "$" (String "/" t) 0)
      with (S <$> Str.find_char_from "$" t 0).
    rewrite cut_first_find.
    destruct (Str.find_char_from "$" t 0) as [j|];
      cbv beta iota delta [fmap option_fmap option_map]; [|done].
    rewrite take_add, Hd. reflexivity.
  - rewrite cut_last_rfind. by destruct (Str.rfind_char "$" l).
Qed.

Lemma parse_network_filter_cases line :
  if Str.is_empty (split_modifiers (after_exception line)).2
  then parse_network_filter line = None
  else is_Some (parse_network_filter line).
Proof.
  unfold parse_network_filter.
  destruct (split_modifiers (after_exception line)) as [modifier_str l].
  simpl. destruct (Str.is_empty l); eauto.
Qed.

End NetworkParser.

(** C9. [parse_network_filter] answers every line, and with [None] exactly
    when nothing is left of the line once a leading [@@] and the modifier
    suffix that starts at [$] are taken away; every other line gives a
    filter. *)
Theorem parse_network_filter_none (line : string) :
  (Parser.parse_network_filter line = None
   ↔ Spec.pattern_text line = EmptyString)
  ∧ (is_Some (Parser.parse_network_filter line)
     ↔ Spec.pattern_text line ≠ EmptyString).
Proof.
  pose proof (parse_network_filter_cases line) as Hcases.
  rewrite split_modifiers_pattern in Hcases.
  destruct (Spec.pattern_text line) as [|c rest]; simpl in Hcases.
  - rewrite Hcases. split; [done|]. split; [by intros [? ?]|done].
  - destruct Hcases as [f ->]. split; split; done.
Qed.

Example parse_garbage :
  is_Some (Parser.parse_network_filter "$$$***|||^^^~~,=domain")
  ∧ Parser.parse_network_filter "@@$script,domain=a.com" = None
  ∧ is_Some (Parser.parse_network_filter "/ads$/")
  ∧ Parser.parse_network_filter "@@" = None.
Proof.
  split; [vm_compute; eauto|]. split; [vm_compute; reflexivity|].
  split; [vm_compute; eauto|vm_compute; reflexivity].
Qed.

(** ** Checks of the primitives on the inputs of the unit tests *)

Example split_host : Str.split "." "sub.example.com" = ["sub"; "example"; "com"].
Proof. reflexivity. Qed.
Example strip_ex : Str.strip "  a b  " = "a b".
Proof. reflexivity. Qed.
Example rfind_ex : Str.rfind_char "/" "/a/b$c" = Some 2.
Proof. reflexivity. Qed.
Example find_from_ex : Str.find_char_from "$" "/a$/b$c" 3 = Some 5.
Proof. reflexivity. Qed.
Example endswith_ex : Str.endswith ".ads.com" "sub.ads.com" = true.
Proof. reflexivity. Qed.
Example split_once_ex : Str.split_once "##" "a.com##.ad##x" = ["a.com"; ".ad##x"].
Proof. reflexivity. Qed.
Example netloc_ex : Url.netloc "https://Ads.com:8080/x?y#z" = Some "Ads.com:8080".
Proof. reflexivity. Qed.
Example netloc_relative : Url.netloc "ads.com/x" = Some "".
Proof. reflexivity. Qed.
Example resource_alias :
  snd <$> Resources.get_redirect_resource "noop.js" = Some "application/javascript".
Proof. vm_compute. reflexivity. Qed.
Example resource_unknown : Resources.get_redirect_resource "unknown-resource" = None.
Proof. vm_compute. reflexivity. Qed.

Example exception_overrides_block :
  let m := Matcher.matcher_of ["||example.com^"; "@@||example.com/allowed^"] in
  Matcher.decide_request Url.netloc Samples.no_raw_regex m
    "https://example.com/ads" None None = Matcher.Block
  ∧ Matcher.decide_request Url.netloc Samples.no_raw_regex m
      "https://example.com/allowed" None None = Matcher.Allow.
Proof. vm_compute. split; reflexivity. Qed.

Example redirect_resource :
  Matcher.decide_request Url.netloc Samples.no_raw_regex
    (Matcher.matcher_of ["||analytics.com/script.js$redirect=noopjs"])
    "https://analytics.com/script.js" None None = Matcher.Redirect "noopjs".
Proof. vm_compute. reflexivity. Qed.

Example third_party_filtering :
  let m := Matcher.matcher_of ["||tracker.com^$third-party"] in
  Matcher.decide_request Url.netloc Samples.no_raw_regex m
    "https://tracker.com/track.js" None (Some "example.com") = Matcher.Block
  ∧ Matcher.decide_request Url.netloc Samples.no_raw_regex m
      "https://tracker.com/track.js" None (Some "tracker.com")
    = Matcher.Allow.
Proof. vm_compute. split; reflexivity. Qed.

(** * Further properties of the code *)

(** ** Hostname variants and domain constraints *)

Section Variants.
Import Matcher.

Lemma append_assoc s t u : (s +:+ t) +:+ u = s +:+ (t +:+ u).
Proof.
  induction s as [|c s IH]; [done|]. by rewrite !append_cons, IH.
Qed.

Lemma len_append s t : Str.len (s +:+ t) = Str.len s + Str.len t.
Proof.
  induction s as [|c s IH]; [done|]. rewrite append_cons. simpl.
  by rewrite <- IH.
Qed.

Lemma drop_append s t : Str.drop (Str.len s) (s +:+ t) = t.
Proof.
  induction s as [|c s IH]; [by destruct t|]. rewrite append_cons. exact IH.
Qed.

Lemma endswith_append q p : Str.endswith p (q +:+ p) = true.
Proof.
  unfold Str.endswith. rewrite len_append.
  replace (Str.len q + Str.len p - Str.len p) with (Str.len q) by lia.
  rewrite drop_append, String.eqb_refl, andb_true_r.
  apply Nat.leb_le. lia.
Qed.

Lemma suffixes_decompose {A} (l l' : list A) :
  l' ∈ suffixes l → l' ≠ [] ∧ ∃ l1, l = l1 ++ l'.
Proof.
  induction l as [|x l IH]; simpl; [by intros ?%elem_of_nil|].
  intros [->|Hin]%elem_of_cons.
  - split; [done|]. by exists [].
  - destruct (IH Hin) as [Hne [l1 ->]]. split; [done|]. by exists (x :: l1).
Qed.

Lemma join_app sep (l1 l2 : list string) :
  l1 ≠ [] → l2 ≠ [] →
  Str.join sep (l1 ++ l2) = Str.join sep l1 +:+ sep +:+ Str.join sep l2.
Proof.
  intros H1 H2. induction l1 as [|p l1 IH]; [done|].
  destruct l1 as [|q l1].
  - simpl. destruct l2; [done|]. reflexivity.
  - change ((p :: q :: l1) ++ l2) with (p :: q :: (l1 ++ l2)).
    rewrite !join_cons. change (q :: l1 ++ l2) with ((q :: l1) ++ l2).
    rewrite IH by done. by rewrite !append_assoc.
Qed.

Lemma length_split c s : length (Str.split c s) = S (Str.count_char c s).
Proof.
  induction s as [|d s IH]; simpl; [done|].
  destruct (Ascii.eqb d c); simpl; [by rewrite IH|].
  destruct (Str.split c s); simpl in *; lia.
Qed.

Lemma length_suffixes {A} (l : list A) : length (suffixes l) = length l.
Proof. induction l as [|x l IH]; simpl; [done|]. by rewrite IH. Qed.

(** The variants of a hostname are the domains that cover it. *)
Lemma variants_covers h v :
  v ∈ _get_hostname_variants h ↔ covers v h = true.
Proof.
  unfold covers. rewrite orb_true_iff, String.eqb_eq. split.
  - unfold _get_hostname_variants.
    intros (l' & -> & [Hne [l1 Hl]]%suffixes_decompose)%list_elem_of_fmap.
    pose proof (join_split "." h) as Hj. rewrite Hl in Hj.
    destruct l1 as [|p l1]; [by left|right].
    rewrite join_app in Hj by done. rewrite <- Hj.
    apply endswith_append.
  - intros H. by apply variant_of_subdomain.
Qed.

Lemma existsb_variants (set : gset string) h :
  existsb (fun variant => bool_decide (variant ∈ set))
    (_get_hostname_variants h) = true
  ↔ ∃ d, d ∈ set ∧ covers d h = true.
Proof.
  rewrite existsb_exists. split.
  - intros (v & Hv%list_elem_of_In%variants_covers & Hin%bool_decide_eq_true).
    eauto.
  - intros (d & Hin & Hc). exists d. split.
    + by apply list_elem_of_In, variants_covers.
    + by apply bool_decide_eq_true.
Qed.

Lemma existsb_variants_empty h (set : gset string) :
  set = ∅ →
  existsb (fun variant => bool_decide (variant ∈ set))
    (_get_hostname_variants h) = false.
Proof.
  intros ->. apply not_true_is_false.
  intros (d & Hin & _)%existsb_variants. set_solver.
Qed.

End Variants.

(** X1. The variants of a hostname are exactly the domains it equals or is
    a subdomain of; the hostname itself comes first, and there is one
    variant for each label. *)
Theorem hostname_variants_spec (hostname : string) :
  (∀ domain,
     domain ∈ Matcher._get_hostname_variants hostname
     ↔ hostname = domain
       ∨ Str.endswith ("." +:+ domain) hostname = true)
  ∧ head (Matcher._get_hostname_variants hostname) = Some hostname
  ∧ length (Matcher._get_hostname_variants hostname)
    = S (Str.count_char "." hostname).
Proof.
  split; [|split].
  - intros domain. rewrite variants_covers. unfold Matcher.covers.
    by rewrite orb_true_iff, String.eqb_eq.
  - unfold Matcher._get_hostname_variants.
    destruct (Str.split "." hostname) as [|p ps] eqn:E.
    + by apply split_not_nil in E.
    + cbn [Matcher.suffixes fmap list_fmap head].
      by rewrite <- E, join_split.
  - unfold Matcher._get_hostname_variants.
    by rewrite length_fmap, length_suffixes, length_split.
Qed.

(** X2. A domain constraint holds for a hostname exactly when no excluded
    domain covers the lower-cased hostname and, if there are included
    domains, one of them covers it: a domain stands for itself and all its
    subdomains, and an exclusion wins over an inclusion. *)
Theorem domain_matches_spec (hostname : string) (included excluded : gset string) :
  Matcher._domain_matches hostname included excluded = true
  ↔ (∀ d, d ∈ excluded → Matcher.covers d (Str.lower hostname) = false)
    ∧ (included = ∅
       ∨ ∃ d, d ∈ included ∧ Matcher.covers d (Str.lower hostname) = true).
Proof.
  unfold Matcher._domain_matches, Matcher.is_empty_set.
  destruct (bool_decide_reflect (included = ∅)) as [Hi|Hi];
    destruct (bool_decide_reflect (excluded = ∅)) as [He|He]; simpl.
  - split; [|done]. intros _. split; [|by left]. intros d. rewrite He.
    set_solver.
  - destruct (existsb _ _) eqn:Hex.
    + apply existsb_variants in Hex as (d & Hd & Hc). split; [done|].
      intros [Hall _]. specialize (Hall d Hd). congruence.
    + split; [|done]. intros _. split; [|by left]. intros d Hd.
      apply not_true_is_false. intros Hc.
      assert (existsb (λ variant, bool_decide (variant ∈ excluded))
                (Matcher._get_hostname_variants (Str.lower hostname)) = true)
        as Habs by (apply existsb_variants; eauto). congruence.
  - rewrite (existsb_variants_empty _ _ He), existsb_variants. split.
    + intros H. split; [rewrite He; set_solver|by right].
    + intros [_ [?|?]]; done.
  - destruct (existsb _ _) eqn:Hex.
    + apply existsb_variants in Hex as (d & Hd & Hc). split; [done|].
      intros [Hall _]. specialize (Hall d Hd). congruence.
    + rewrite existsb_variants. split.
      * intros H. split; [|by right]. intros d Hd.
        apply not_true_is_false. intros Hc.
        assert (existsb (λ variant, bool_decide (variant ∈ excluded))
                  (Matcher._get_hostname_variants (Str.lower hostname)) = true)
          as Habs by (apply existsb_variants; eauto). congruence.
      * intros [_ [?|?]]; done.
Qed.

(** X3. The three copies of [_domain_matches] agree: the one of
    [cosmetic.py] is the one of [matcher.py], and the one of
    [scriptlets.py] differs only in refusing an empty include set. *)
Theorem domain_matches_copies (hostname : string) (included excluded : gset string) :
  Cosmetic._domain_matches hostname included excluded
  = Matcher._domain_matches hostname included excluded
  ∧ Scriptlets._domain_matches hostname included excluded
    = negb (Matcher.is_empty_set included)
      && Matcher._domain_matches hostname included excluded.
Proof.
  unfold Cosmetic._domain_matches, Scriptlets._domain_matches,
    Matcher._domain_matches, Cosmetic._get_hostname_variants,
    Scriptlets._get_hostname_variants, Matcher.is_empty_set.
  fold (Matcher._get_hostname_variants (Str.lower hostname)).
  destruct (bool_decide_reflect (included = ∅)) as [Hi|Hi];
    destruct (bool_decide_reflect (excluded = ∅)) as [He|He]; simpl;
    rewrite ?(existsb_variants_empty _ _ He);
    repeat match goal with
           | |- context [existsb ?f ?l] => destruct (existsb f l)
           end; done.
Qed.

(** ** What [should_block] decides *)

Section Decisions.
Import Parser Matcher.

Variable urlparse_netloc : string -> option string.
Variable re_search_raw : string -> string -> option bool.

Lemma stored_is_added batches c f :
  f ∈ contents (after_adding batches) c →
  f ∈ concat batches ∧ c = container_of f.
Proof.
  rewrite contents_after_adding.
  intros [Hin Hc]%list_elem_of_In%List.filter_In. split.
  - by apply list_elem_of_In.
  - by apply in_container_unique.
Qed.

(** Soundness of either search: what it returns was added, is of the kind
    searched for, and matches. *)
Lemma find_filter_sound batches (e : bool) url host request_type source third f :
  Matcher.find_filter urlparse_netloc re_search_raw
    (if e then _exception_hostname_index (after_adding batches)
     else _hostname_index (after_adding batches))
    (if e then _generic_exceptions (after_adding batches)
     else _generic_filters (after_adding batches))
    url host request_type source third = Some f →
  f ∈ concat batches ∧ is_exception f = e
  ∧ Matcher._filter_matches urlparse_netloc re_search_raw f url host
      request_type source third = true.
Proof.
  unfold Matcher.find_filter.
  match goal with
  | |- match ?x with _ => _ end = _ → _ => destruct x as [g|] eqn:E
  end.
  - intros [= ->]. apply find_indexed_sound in E as [Hp [key Hin]].
    assert (f ∈ contents (after_adding batches) (Indexed e key)) as Hc
      by (by destruct e).
    apply stored_is_added in Hc as [Hadd Hc].
    apply eq_sym, container_indexed in Hc. tauto.
  - intros Hf. apply List.find_some in Hf as [Hin%list_elem_of_In Hp].
    assert (f ∈ contents (after_adding batches) (Generic e)) as Hc
      by (by destruct e).
    apply stored_is_added in Hc as [Hadd Hc].
    apply eq_sym, container_generic in Hc. tauto.
Qed.

Local Abbreviation added_match :=
  (Matcher.added_match urlparse_netloc re_search_raw).

(** [should_block] blocks exactly when an added blocking filter matches and
    no added exception filter does. *)
Lemma blocked_iff batches url request_type source :
  mr_blocked
    (Matcher.should_block urlparse_netloc re_search_raw (after_adding batches)
       url request_type source) = true
  ↔ added_match batches false url request_type source
    ∧ ¬ added_match batches true url request_type source.
Proof.
  unfold Matcher.added_match, Matcher.should_block, Matcher.request_matches.
  destruct (Matcher.url_hostname urlparse_netloc url) as [host|] eqn:Hu.
  2:{ split; [done|]. by intros [(f & _ & _ & ?) _]. }
  unfold _find_blocking_filter, _find_exception.
  destruct (Matcher.find_filter _ _ (_hostname_index _) _ _ _ _ _ _)
    as [b|] eqn:Hb.
  - apply (find_filter_sound batches false) in Hb as (Hb1 & Hb2 & Hb3).
    destruct (Matcher.find_filter _ _ (_exception_hostname_index _) _ _ _ _ _ _)
      as [x|] eqn:Hx.
    + apply (find_filter_sound batches true) in Hx as (Hx1 & Hx2 & Hx3).
      simpl. split; [done|]. intros [_ Hno]. destruct Hno. eauto.
    + assert (mr_blocked
                match redirect b with
                | Some name =>
                    if Str.truthy name
                    then {| mr_blocked := true; mr_filter := Some b;
                            mr_redirect := Some name |}
                    else {| mr_blocked := true; mr_filter := Some b;
                            mr_redirect := None |}
                | None => {| mr_blocked := true; mr_filter := Some b;
                             mr_redirect := None |}
                end = true) as ->
        by (destruct (redirect b) as [n|]; [destruct (Str.truthy n)|]; done).
      split; [|done]. intros _. split; [eauto|].
      intros (E & HE & HEe & HEm).
      destruct (find_filter_complete urlparse_netloc re_search_raw batches
                  true E url host request_type source HE HEe Hu HEm)
        as [x Hx']. simpl in Hx'. congruence.
  - simpl. split; [done|]. intros [(B & HB & HBe & HBm) _].
    destruct (find_filter_complete urlparse_netloc re_search_raw batches
                false B url host request_type source HB HBe Hu HBm)
      as [b Hb']. simpl in Hb'. congruence.
Qed.

Lemma decision_allow r : decision r = Allow ↔ mr_blocked r = false.
Proof.
  unfold decision. destruct (mr_blocked r); [|done].
  destruct (mr_redirect r) as [n|]; [destruct (Str.truthy n)|]; done.
Qed.

End Decisions.

(** X4. Over every matcher filled by [add_filters], [should_block] lets a
    request through unless an added blocking filter matches it and no added
    exception filter does: the decision is other than [Allow] exactly
    then.  In particular a URL that [urlparse] rejects is let through. *)
Theorem should_block_spec
    (urlparse_netloc : string → option string)
    (re_search_raw : string → string → option bool)
    (batches : list (list Parser.NetworkFilter))
    (url : string) (request_type : option Parser.RequestType)
    (source_hostname : option string) :
  let matches f :=
    Matcher.request_matches urlparse_netloc re_search_raw f url request_type
      source_hostname = true in
  (Matcher.decide_request urlparse_netloc re_search_raw
     (Matcher.after_adding batches) url request_type source_hostname
   ≠ Matcher.Allow
   ↔ (∃ B, B ∈ concat batches ∧ Parser.is_exception B = false ∧ matches B)
     ∧ ¬ (∃ E, E ∈ concat batches ∧ Parser.is_exception E = true
               ∧ matches E))
  ∧ (urlparse_netloc url = None →
     Matcher.should_block urlparse_netloc re_search_raw
       (Matcher.after_adding batches) url request_type source_hostname
     = {| Matcher.mr_blocked := false; Matcher.mr_filter := None;
          Matcher.mr_redirect := None |}).
Proof.
  intros matches. split.
  - unfold Matcher.decide_request. rewrite decision_allow.
    rewrite not_false_iff_true. apply blocked_iff.
  - intros Hu. unfold Matcher.should_block, Matcher.url_hostname.
    by rewrite Hu.
Qed.

(** X5. A blocking answer names an added blocking filter that matches the
    request; the decision is [Redirect name] when that filter has a
    non-empty [redirect] name, and [Block] otherwise. *)
Theorem blocked_answer_reports_filter
    (urlparse_netloc : string → option string)
    (re_search_raw : string → string → option bool)
    (batches : list (list Parser.NetworkFilter))
    (url : string) (request_type : option Parser.RequestType)
    (source_hostname : option string) :
  let r := Matcher.should_block urlparse_netloc re_search_raw
             (Matcher.after_adding batches) url request_type
             source_hostname in
  Matcher.mr_blocked r = true →
  ∃ b, Matcher.mr_filter r = Some b ∧ b ∈ concat batches
       ∧ Parser.is_exception b = false
       ∧ Matcher.request_matches urlparse_netloc re_search_raw b url
           request_type source_hostname = true
       ∧ Matcher.decision r
         = match Parser.redirect b with
           | Some name =>
               if Str.truthy name then Matcher.Redirect name
               else Matcher.Block
           | None => Matcher.Block
           end.
Proof.
  unfold Matcher.should_block, Matcher.request_matches.
  destruct (Matcher.url_hostname urlparse_netloc url) as [host|] eqn:Hu;
    [|done].
  unfold Matcher._find_blocking_filter, Matcher._find_exception.
  destruct (Matcher.find_filter _ _ (Matcher._hostname_index _) _ _ _ _ _ _)
    as [b|] eqn:Hb; [|done].
  apply (find_filter_sound urlparse_netloc re_search_raw batches false) in Hb as (Hb1 & Hb2 & Hb3).
  destruct (Matcher.find_filter _ _ (Matcher._exception_hostname_index _) _ _ _ _ _ _)
    as [x|]; [done|].
  intros _. exists b.
  destruct (Parser.redirect b) as [n|] eqn:Hr; [destruct (Str.truthy n) eqn:Hn|];
    simpl; unfold Matcher.decision; simpl; rewrite ?Hn; done.
Qed.

Lemma blocked_answer_witness :
  let r := Matcher.should_block Url.netloc Samples.no_raw_regex
             (Matcher.after_adding [[Samples.block_example]])
             "https://example.com/ads" None None in
  Matcher.mr_blocked r = true
  ∧ ∃ b, Matcher.mr_filter r = Some b ∧ Parser.is_exception b = false.
Proof.
  intros r.
  assert (Matcher.mr_blocked r = true) as Hb by (vm_compute; reflexivity).
  split; [exact Hb|].
  destruct (blocked_answer_reports_filter Url.netloc Samples.no_raw_regex
              [[Samples.block_example]] "https://example.com/ads" None None Hb)
    as (b & H1 & _ & H2 & _).
  exists b. split; [exact H1|exact H2].
Defined.

(** X6. Whether a request is let through does not depend on the order in
    which the filters were added, nor on how they were split over
    [add_filters] calls. *)
Theorem allow_is_order_independent
    (urlparse_netloc : string → option string)
    (re_search_raw : string → string → option bool)
    (batches batches' : list (list Parser.NetworkFilter))
    (url : string) (request_type : option Parser.RequestType)
    (source_hostname : option string) :
  concat batches ≡ₚ concat batches' →
  Matcher.decide_request urlparse_netloc re_search_raw
    (Matcher.after_adding batches) url request_type source_hostname
  = Matcher.Allow
  ↔ Matcher.decide_request urlparse_netloc re_search_raw
      (Matcher.after_adding batches') url request_type source_hostname
    = Matcher.Allow.
Proof.
  intros Hperm. unfold Matcher.decide_request.
  rewrite !decision_allow, <- !not_true_iff_false, !blocked_iff.
  unfold Matcher.added_match.
  assert (∀ f, f ∈ concat batches ↔ f ∈ concat batches') as Hin
    by (intros f; by rewrite Hperm).
  split; intros Hno [(B & HB & ?) HE]; apply Hno; (split; [|intros (E & HE' & ?); apply HE]);
    eexists; (split; [apply Hin; eassumption|done]).
Qed.

Lemma allow_is_order_independent_witness :
  let one := [[Samples.block_example]; [Samples.allow_example]] in
  let other := [[Samples.allow_example; Samples.block_example]] in
  concat one ≡ₚ concat other
  ∧ Matcher.decide_request Url.netloc Samples.no_raw_regex
      (Matcher.after_adding other) "https://example.com/allowed" None None
    = Matcher.Allow.
Proof.
  intros one other.
  assert (concat one ≡ₚ concat other) as Hperm by apply perm_swap.
  split; [exact Hperm|].
  apply (allow_is_order_independent Url.netloc Samples.no_raw_regex one other
           "https://example.com/allowed" None None Hperm).
  vm_compute. reflexivity.
Defined.

(** ** First and third parties *)

Section Parties.
Import Matcher.

Lemma count_char_pos c s : Str.has_char c s = true → 1 ≤ Str.count_char c s.
Proof.
  induction s as [|d s IH]; simpl; [done|].
  destruct (Ascii.eqb d c); simpl; [lia|]. intros H. apply IH in H. lia.
Qed.

Lemma get_domain_subdomain p h :
  Str.has_char "." h = true → get_domain (p +:+ "." +:+ h) = get_domain h.
Proof.
  intros Hdot%count_char_pos. unfold get_domain.
  change (p +:+ "." +:+ h) with (p +:+ String "." h).
  rewrite split_app, length_app.
  pose proof (length_split "." h) as Hlen.
  replace (2 <=? length (Str.split "." p) + length (Str.split "." h))
    with true by (symmetry; apply Nat.leb_le; lia).
  replace (2 <=? length (Str.split "." h))
    with true by (symmetry; apply Nat.leb_le; lia).
  rewrite drop_app_ge by lia. do 2 f_equal. lia.
Qed.

End Parties.

(** X7. A hostname with at least two labels and each of its subdomains are
    first-party to one another. *)
Theorem subdomain_is_first_party (sub hostname : string) :
  Str.has_char "." hostname = true →
  Matcher._is_third_party (sub +:+ "." +:+ hostname) (Some hostname) = false
  ∧ Matcher._is_third_party hostname (Some (sub +:+ "." +:+ hostname))
    = false.
Proof.
  intros Hdot. unfold Matcher._is_third_party.
  rewrite get_domain_subdomain by done. rewrite String.eqb_refl.
  split.
  - by destruct hostname.
  - by destruct sub.
Qed.

Lemma subdomain_is_first_party_witness :
  Str.has_char "." "example.co.uk" = true
  ∧ Matcher._is_third_party "cdn.example.co.uk" (Some "example.co.uk") = false.
Proof.
  split; [reflexivity|].
  exact (proj1 (subdomain_is_first_party "cdn" "example.co.uk" eq_refl)).
Defined.

(** ** What [parse_network_filter] returns *)

Section ParsedNetworkFilter.
Import Parser.

Lemma lower_char_idem d : Str.lower_char (Str.lower_char d) = Str.lower_char d.
Proof. destruct d as [[] [] [] [] [] [] [] []]; reflexivity. Qed.

Lemma lower_idem s : Str.lower (Str.lower s) = Str.lower s.
Proof.
  induction s as [|c s IH]; simpl; [done|]. by rewrite lower_char_idem, IH.
Qed.





Lemma startswith_char c s :
  Str.startswith (String c EmptyString) s
  = match s with String d _ => Ascii.eqb c d | EmptyString => false end.
Proof. destruct s; [done|]. cbn [Str.startswith]. apply andb_true_r. Qed.





End ParsedNetworkFilter.



(** ** Patterns *)

Section Patterns.
Import Parser.




End Patterns.



(** X10. A single [|] in front of a pattern is taken off and remembered
    as [is_left_anchor], and that is all: for a non-empty line without
    [$] that starts neither with [|] nor with [@@], the line and the
    line with the [|] in front parse to filters that differ in that flag
    only, and the match predicate, which reads neither anchor flag, gives
    the same answer for both. *)
Theorem left_anchor_has_no_effect (line : string) :
  Str.truthy line = true → Str.startswith "|" line = false →
  Str.startswith "@@" line = false → Str.has_char "$" line = false →
  ∃ f,
    Parser.parse_network_filter line = Some f
    ∧ Parser.parse_network_filter (String "|" line)
      = Some (Samples.with_anchors f true (Parser.is_right_anchor f))
    ∧ ∀ urlparse_netloc re_search_raw left right url hostname request_type
        source_hostname is_third_party,
        Matcher._filter_matches urlparse_netloc re_search_raw
          (Samples.with_anchors f left right) url hostname request_type
          source_hostname is_third_party
        = Matcher._filter_matches urlparse_netloc re_search_raw f url
            hostname request_type source_hostname is_third_party.
Proof.
  intros Ht Hp He Hd.
  assert (Str.startswith "||" line = false) as Hpp.
  { destruct line as [|c l]; [done|]. rewrite startswith_char in Hp.
    change (Str.startswith "||" (String c l))
      with (Ascii.eqb "|" c && Str.startswith "|" l).
    by rewrite Hp. }
  assert (Parser.split_modifiers line = (EmptyString, line)) as Hs.
  { unfold Parser.split_modifiers. by rewrite contains_char, Hd. }
  assert (Parser.split_modifiers (String "|" line)
          = (EmptyString, String "|" line)) as Hs'.
  { unfold Parser.split_modifiers. rewrite contains_char.
    cbn [Str.has_char]. by rewrite Hd. }
  unfold Parser.parse_network_filter, Parser.after_exception.
  rewrite He. change (Str.startswith "@@" (String "|" line)) with false.
  cbv iota. rewrite Hs, Hs'. cbv zeta iota beta.
  change (Str.is_empty (String "|" line)) with false.
  change (Str.startswith "||" (String "|" line))
    with (Ascii.eqb "|" "|" && Str.startswith "|" line).
  rewrite Hp, Hpp. cbn [andb negb Ascii.eqb Bool.eqb]. cbv iota.
  rewrite ?Hp.
  change (Str.startswith "|" (String "|" line)) with true.
  cbv iota. change (Str.drop 1 (String "|" line)) with line.
  unfold Str.truthy in Ht. apply negb_true_iff in Ht. rewrite Ht.
  cbn [Str.truthy Str.is_empty negb]. cbv iota.
  eexists. split; [reflexivity|]. split; [reflexivity|].
  reflexivity.
Qed.

Lemma left_anchor_witness :
  ∃ f, Parser.parse_network_filter "-ad-banner." = Some f
       ∧ Parser.parse_network_filter "|-ad-banner."
         = Some (Samples.with_anchors f true (Parser.is_right_anchor f)).
Proof.
  destruct (left_anchor_has_no_effect "-ad-banner." eq_refl eq_refl eq_refl
              eq_refl) as (f & H1 & H2 & _).
  exists f. split; [exact H1|exact H2].
Defined.

(** ** The cosmetic index *)

Section CosmeticIndex.
Import Parser Cosmetic.

Lemma get_list_foldl_append {A} (f : A) (keys : list string) index k :
  NoDup keys →
  Matcher.get_list
    (foldl (fun index domain => Matcher.index_append index domain f)
       index keys) k
  = Matcher.get_list index k ++ (if bool_decide (k ∈ keys) then [f] else []).
Proof.
  intros Hnd. revert index.
  induction Hnd as [|d keys Hd Hnd IH]; intros index; simpl.
  - by rewrite app_nil_r.
  - rewrite IH, get_list_append, <- app_assoc. f_equal.
    destruct (String.eqb_spec k d) as [->|Hne].
    + rewrite (bool_decide_eq_false_2 (d ∈ keys)) by done.
      rewrite bool_decide_eq_true_2 by apply list_elem_of_here. done.
    + destruct (bool_decide_reflect (k ∈ keys)) as [Hin|Hin].
      * rewrite bool_decide_eq_true_2 by (by apply list_elem_of_further).
        done.
      * rewrite bool_decide_eq_false_2; [done|].
        by intros [?|?]%elem_of_cons.
Qed.

(** Filing [f] under a set of keys appends it to the list of each key of
    the set and to no other list. *)
Lemma get_list_index_under {A} (f : A) (keys : gset string) index k :
  Matcher.get_list (index_under index keys f) k
  = Matcher.get_list index k ++ (if bool_decide (k ∈ keys) then [f] else []).
Proof.
  unfold index_under. rewrite get_list_foldl_append by apply NoDup_elements.
  f_equal. destruct (bool_decide_reflect (k ∈ keys)) as [Hin|Hin].
  - by rewrite bool_decide_eq_true_2 by (by apply elem_of_elements).
  - rewrite bool_decide_eq_false_2; [done|]. by rewrite elem_of_elements.
Qed.

Lemma global_after_add h f (e : bool) :
  (if e then _global_exceptions (_add_filter h f)
   else _global_filters (_add_filter h f))
  = (if e then _global_exceptions h else _global_filters h)
    ++ (if Bool.eqb (c_is_exception f) e
           && Matcher.is_empty_set (c_domains f) then [f] else []).
Proof.
  unfold _add_filter, add_global, add_indexed, count_filter.
  destruct (Matcher.is_empty_set (c_domains f)),
    (Matcher.is_empty_set (c_excluded_domains f)), (c_is_exception f), e;
    simpl; by rewrite ?app_nil_r.
Qed.

Lemma indexed_after_add h f (e : bool) k :
  Matcher.get_list
    (if e then _domain_exceptions (_add_filter h f)
     else _domain_filters (_add_filter h f)) k
  = Matcher.get_list (if e then _domain_exceptions h else _domain_filters h) k
    ++ (if Bool.eqb (c_is_exception f) e
           && bool_decide (k ∈ c_domains f) then [f] else []).
Proof.
  unfold _add_filter, add_global, add_indexed, count_filter,
    Matcher.is_empty_set.
  destruct (bool_decide_reflect (c_domains f = ∅)) as [Hd|Hd].
  - rewrite Hd. rewrite (bool_decide_eq_false_2 (k ∈ ∅)) by set_solver.
    rewrite andb_false_r, app_nil_r.
    destruct (bool_decide (c_excluded_domains f = ∅)), (c_is_exception f), e;
      done.
  - rewrite andb_false_l. cbn [negb].
    destruct (c_is_exception f), e; simpl;
      rewrite ?get_list_index_under, ?app_nil_r; done.
Qed.

Lemma global_after_adding fs (e : bool) :
  (if e then _global_exceptions (add_filters init fs)
   else _global_filters (add_filters init fs))
  = List.filter
      (fun f => Bool.eqb (c_is_exception f) e
                && Matcher.is_empty_set (c_domains f)) fs.
Proof.
  unfold add_filters.
  assert (∀ h,
            (if e then _global_exceptions (foldl _add_filter h fs)
             else _global_filters (foldl _add_filter h fs))
            = (if e then _global_exceptions h else _global_filters h)
              ++ List.filter
                   (fun f => Bool.eqb (c_is_exception f) e
                             && Matcher.is_empty_set (c_domains f)) fs) as H.
  { induction fs as [|f fs IH]; intros h; simpl; [by rewrite app_nil_r|].
    rewrite IH, global_after_add, <- app_assoc. f_equal.
    by destruct (_ && _). }
  rewrite H. by destruct e.
Qed.

Lemma indexed_after_adding fs (e : bool) k :
  Matcher.get_list
    (if e then _domain_exceptions (add_filters init fs)
     else _domain_filters (add_filters init fs)) k
  = List.filter
      (fun f => Bool.eqb (c_is_exception f) e
                && bool_decide (k ∈ c_domains f)) fs.
Proof.
  unfold add_filters.
  assert (∀ h,
            Matcher.get_list
              (if e then _domain_exceptions (foldl _add_filter h fs)
               else _domain_filters (foldl _add_filter h fs)) k
            = Matcher.get_list
                (if e then _domain_exceptions h else _domain_filters h) k
              ++ List.filter
                   (fun f => Bool.eqb (c_is_exception f) e
                             && bool_decide (k ∈ c_domains f)) fs) as H.
  { induction fs as [|f fs IH]; intros h; simpl; [by rewrite app_nil_r|].
    rewrite IH, indexed_after_add, <- app_assoc. f_equal.
    by destruct (_ && _). }
  rewrite H. by destruct e.
Qed.

Lemma domain_matches_variant hostname included excluded :
  _domain_matches hostname included excluded = true → included ≠ ∅ →
  ∃ v, v ∈ _get_hostname_variants (Str.lower hostname) ∧ v ∈ included.
Proof.
  unfold _domain_matches, Matcher.is_empty_set. intros H Hne.
  destruct (existsb _ _) in H; [done|].
  rewrite bool_decide_eq_false_2 in H by done.
  apply existsb_exists in H as (v & Hv%list_elem_of_In & Hin%bool_decide_eq_true).
  eauto.
Qed.

(** The filters that a query looks at, for exceptions ([e = true]) or for
    hiding rules: what the index hands out for the hostname holds every
    added filter of that kind that applies to it, and only added filters of
    that kind. *)
Lemma looked_up_iff fs (e : bool) hostname f :
  let h := add_filters init fs in
  let found :=
    (if e then _global_exceptions h else _global_filters h)
    ++ indexed (if e then _domain_exceptions h else _domain_filters h)
         (Str.lower hostname) in
  (f ∈ found ∧ applies (Str.lower hostname) f = true)
  ↔ (f ∈ fs ∧ c_is_exception f = e
     ∧ applies (Str.lower hostname) f = true).
Proof.
  intros h found. subst found h. rewrite elem_of_app, global_after_adding.
  unfold indexed. split.
  - intros [[Hin|Hin] Ha].
    + apply list_elem_of_In, List.filter_In in Hin as [Hin Hc].
      apply andb_true_iff in Hc as [Hc%Bool.eqb_prop _].
      split; [by apply list_elem_of_In|done].
    + apply list_elem_of_join in Hin as (l & Hf & Hl).
      apply list_elem_of_fmap in Hl as (k & -> & _).
      rewrite indexed_after_adding in Hf.
      apply list_elem_of_In, List.filter_In in Hf as [Hin Hc].
      apply andb_true_iff in Hc as [Hc%Bool.eqb_prop _].
      split; [by apply list_elem_of_In|done].
  - intros (Hin & He & Ha). split; [|done].
    destruct (bool_decide_reflect (c_domains f = ∅)) as [Hd|Hd].
    + left. apply list_elem_of_In, List.filter_In.
      split; [by apply list_elem_of_In|].
      unfold Matcher.is_empty_set.
      by rewrite He, Bool.eqb_reflx, bool_decide_eq_true_2.
    + right. destruct (domain_matches_variant _ _ _ Ha Hd) as (v & Hv & Hvin).
      rewrite lower_idem in Hv.
      apply list_elem_of_join.
      exists (Matcher.get_list
                (if e then _domain_exceptions (add_filters init fs)
                 else _domain_filters (add_filters init fs)) v).
      split.
      * rewrite indexed_after_adding.
        apply list_elem_of_In, List.filter_In.
        split; [by apply list_elem_of_In|].
        by rewrite He, Bool.eqb_reflx, bool_decide_eq_true_2.
      * apply list_elem_of_fmap. by exists v.
Qed.

End CosmeticIndex.

(** X11. The selectors handed out for a hostname are those of the added
    hiding rules that apply to it, minus those that an added exception
    rule applying to it names: the index over the included domains leaves
    no applicable rule out and brings no other rule in. *)
Theorem cosmetic_selectors_spec
    (fs : list Parser.CosmeticFilter) (hostname S : string) :
  S ∈ Cosmetic.get_selectors_for_domain
        (Cosmetic.add_filters Cosmetic.init fs) hostname
  ↔ (∃ f, f ∈ fs ∧ Parser.c_is_exception f = false
          ∧ Parser.selector f = S
          ∧ Cosmetic.applies (Str.lower hostname) f = true)
    ∧ ¬ (∃ e, e ∈ fs ∧ Parser.c_is_exception e = true
              ∧ Parser.selector e = S
              ∧ Cosmetic.applies (Str.lower hostname) e = true).
Proof.
  unfold Cosmetic.get_selectors_for_domain.
  set (h := Cosmetic.add_filters Cosmetic.init fs).
  assert (∀ T, T ∈ Cosmetic.exception_selectors h (Str.lower hostname)
               ↔ ∃ e, e ∈ fs ∧ Parser.c_is_exception e = true
                      ∧ Parser.selector e = T
                      ∧ Cosmetic.applies (Str.lower hostname) e = true)
    as Hexc.
  { intros T. unfold Cosmetic.exception_selectors.
    rewrite elem_of_list_to_set, list_elem_of_fmap. split.
    - intros (e & -> & [He Ha]%list_elem_of_In%List.filter_In).
      apply list_elem_of_In in He.
      destruct (proj1 (looked_up_iff fs true hostname e) (conj He Ha))
        as (? & ? & ?). eauto 6.
    - intros (e & He & Hk & <- & Ha). exists e. split; [done|].
      apply list_elem_of_In, List.filter_In.
      destruct (proj2 (looked_up_iff fs true hostname e)
                  (conj He (conj Hk Ha))) as [Hin _].
      split; [by apply list_elem_of_In|done]. }
  rewrite list_elem_of_fmap. split.
  - intros (f & -> & [Hf Hp]%list_elem_of_In%List.filter_In).
    apply list_elem_of_In in Hf.
    apply andb_true_iff in Hp as [Hno%negb_true_iff Ha].
    apply bool_decide_eq_false in Hno.
    destruct (proj1 (looked_up_iff fs false hostname f) (conj Hf Ha))
      as (? & ? & ?).
    split; [eauto 6|]. intros He. by apply Hno, Hexc.
  - intros [(f & Hf & Hk & <- & Ha) Hno]. exists f. split; [done|].
    apply list_elem_of_In, List.filter_In.
    destruct (proj2 (looked_up_iff fs false hostname f)
                (conj Hf (conj Hk Ha))) as [Hin _].
    split; [by apply list_elem_of_In|].
    rewrite Ha, andb_true_r. apply negb_true_iff, bool_decide_eq_false.
    by rewrite Hexc.
Qed.

(** ** The scriptlet index *)

Section ScriptletIndex.
Import Parser Scriptlets.

Variable SCRIPTLETS : gmap string string.

Lemma scriptlets_after_adding fs k :
  Matcher.get_list (_domain_scriptlets (add_filters init fs)) k
  = List.filter (fun f => bool_decide (k ∈ s_domains f)) fs.
Proof.
  unfold add_filters.
  assert (∀ h,
            Matcher.get_list (_domain_scriptlets (foldl _add_filter h fs)) k
            = Matcher.get_list (_domain_scriptlets h) k
              ++ List.filter (fun f => bool_decide (k ∈ s_domains f)) fs)
    as H.
  { induction fs as [|f fs IH]; intros h; simpl; [by rewrite app_nil_r|].
    rewrite IH.
    change (_domain_scriptlets (_add_filter h f))
      with (Cosmetic.index_under (_domain_scriptlets h) (s_domains f) f).
    rewrite get_list_index_under, <- app_assoc. f_equal.
    by destruct (bool_decide _). }
  by rewrite H.
Qed.

Lemma emit_some_variant hostname f script :
  emit SCRIPTLETS hostname f = Some script →
  ∃ v, v ∈ _get_hostname_variants (Str.lower hostname) ∧ v ∈ s_domains f.
Proof.
  unfold emit, _domain_matches.
  destruct (existsb _ _); [done|].
  destruct (Matcher.is_empty_set (s_domains f)); [done|].
  destruct (existsb _ _) eqn:E; [|done]. intros _.
  apply existsb_exists in E
    as (v & Hv%list_elem_of_In & Hin%bool_decide_eq_true).
  eauto.
Qed.

End ScriptletIndex.

(** X12. The scripts built for a hostname are those of the added scriptlet
    filters for which the loop body yields a script (the domain constraints
    hold for the hostname and the name, after aliases, is registered): the
    index over the included domains leaves none of them out and brings no
    other filter in. *)
Theorem scriptlets_spec
    (SCRIPTLETS : gmap string string) (fs : list Parser.ScriptletFilter)
    (hostname : string) (f : Parser.ScriptletFilter) (script : string) :
  (f, script)
    ∈ Scriptlets.emitted SCRIPTLETS
        (Scriptlets.add_filters Scriptlets.init fs) hostname
  ↔ f ∈ fs
    ∧ Scriptlets.emit SCRIPTLETS (Str.lower hostname) f = Some script.
Proof.
  unfold Scriptlets.emitted, Scriptlets.indexed.
  rewrite list_elem_of_omap. split.
  - intros (g & Hg & Hm).
    destruct (Scriptlets.emit SCRIPTLETS (Str.lower hostname) g) as [s|] eqn:E;
      [|done].
    injection Hm as -> ->. split; [|done].
    apply list_elem_of_join in Hg as (l & Hf & Hl).
    apply list_elem_of_fmap in Hl as (k & -> & _).
    rewrite scriptlets_after_adding in Hf.
    by apply list_elem_of_In, List.filter_In, proj1, list_elem_of_In in Hf.
  - intros [Hin He]. exists f. split; [|by rewrite He].
    destruct (emit_some_variant _ _ _ _ He) as (v & Hv & Hvin).
    rewrite lower_idem in Hv. apply list_elem_of_join.
    exists (Matcher.get_list
              (Scriptlets._domain_scriptlets
                 (Scriptlets.add_filters Scriptlets.init fs)) v).
    split.
    + rewrite scriptlets_after_adding. apply list_elem_of_In, List.filter_In.
      split; [by apply list_elem_of_In|by apply bool_decide_eq_true].
    + apply list_elem_of_fmap. by exists v.
Qed.

(** ** Redirect resources *)

Section ResourceTables.
Import Resources.

Lemma aliases_checked :
  forallb
    (fun entry : string * string =>
       match RESOURCES !! entry.2 with
       | Some _ => bool_decide (RESOURCE_ALIASES !! entry.2 = None)
       | None => false
       end)
    (map_to_list RESOURCE_ALIASES) = true.
Proof. vm_compute. reflexivity. Qed.

Lemma resources_checked :
  forallb
    (fun entry : string * Resource =>
       bool_decide (RESOURCE_ALIASES !! entry.1 = None))
    (map_to_list RESOURCES) = true.
Proof. vm_compute. reflexivity. Qed.

End ResourceTables.

(** X13. No alias of [RESOURCE_ALIASES] dangles or chains: each names a
    resource of [RESOURCES], which [get_redirect_resource] returns for it.
    No resource name is itself an alias, so a resource is found under its
    own name; and a name gets no resource only if it is neither an alias
    nor a resource name. *)
Theorem redirect_resource_lookup :
  (∀ alias target,
     Resources.RESOURCE_ALIASES !! alias = Some target →
     Resources.RESOURCE_ALIASES !! target = None
     ∧ ∃ r, Resources.RESOURCES !! target = Some r
            ∧ Resources.get_redirect_resource alias = Some r)
  ∧ (∀ name r,
       Resources.RESOURCES !! name = Some r →
       Resources.get_redirect_resource name = Some r)
  ∧ (∀ name,
       Resources.get_redirect_resource name = None
       ↔ Resources.RESOURCE_ALIASES !! name = None
         ∧ Resources.RESOURCES !! name = None).
Proof.
  assert (∀ alias target,
            Resources.RESOURCE_ALIASES !! alias = Some target →
            Resources.RESOURCE_ALIASES !! target = None
            ∧ ∃ r, Resources.RESOURCES !! target = Some r
                   ∧ Resources.get_redirect_resource alias = Some r) as H1.
  { intros alias target Ha.
    pose proof (proj1 (forallb_True _ _) (Is_true_true_2 _ aliases_checked))
      as Hall.
    rewrite Forall_forall in Hall.
    specialize (Hall (alias, target)
                  (proj2 (elem_of_map_to_list _ alias target) Ha)).
    apply Is_true_true_1 in Hall. cbn [snd] in Hall.
    unfold Resources.get_redirect_resource. rewrite Ha.
    change (default alias (Some target)) with target.
    destruct (Resources.RESOURCES !! target) as [r|]; [|discriminate Hall].
    apply bool_decide_eq_true in Hall.
    split; [exact Hall|]. exists r. split; reflexivity. }
  assert (∀ name r,
            Resources.RESOURCES !! name = Some r →
            Resources.RESOURCE_ALIASES !! name = None) as H2.
  { intros name r Hr.
    pose proof (proj1 (forallb_True _ _) (Is_true_true_2 _ resources_checked))
      as Hall.
    rewrite Forall_forall in Hall.
    specialize (Hall (name, r) (proj2 (elem_of_map_to_list _ name r) Hr)).
    apply Is_true_true_1 in Hall. cbn [fst] in Hall.
    apply bool_decide_eq_true in Hall. exact Hall. }
  split; [exact H1|]. split.
  - intros name r Hr. unfold Resources.get_redirect_resource.
    rewrite (H2 name r Hr). exact Hr.
  - intros name. split.
    + intros Hnone.
      destruct (Resources.RESOURCE_ALIASES !! name) as [target|] eqn:Ha.
      * destruct (H1 name target Ha) as [_ (r & _ & Hr)].
        rewrite Hr in Hnone. discriminate Hnone.
      * split; [reflexivity|].
        unfold Resources.get_redirect_resource in Hnone.
        rewrite Ha in Hnone. exact Hnone.
    + intros [Ha Hr]. unfold Resources.get_redirect_resource.
      rewrite Ha. exact Hr.
Qed.

(** ** The counters over a run of requests *)

Section Counters.
Import Engine.

Variable urlparse_netloc : string -> option string.
Variable re_search_raw : string -> string -> option bool.

Lemma handle_route_step e route :
  let after := _handle_route urlparse_netloc re_search_raw e route in
  let n := if is_http (url route) then 1 else 0 in
  _network_matcher after.1 = _network_matcher e
  ∧ _requests_checked after.1 = _requests_checked e + n
  ∧ _requests_blocked e ≤ _requests_blocked after.1 ≤ _requests_blocked e + n
  ∧ _requests_redirected e ≤ _requests_redirected after.1
    ≤ _requests_redirected e + n
  ∧ after.2 ≠ []
  ∧ (fulfill_succeeds route = true →
     _requests_blocked after.1 + _requests_redirected after.1
     ≤ _requests_blocked e + _requests_redirected e + n
     ∧ length after.2 = 1).
Proof.
  unfold _handle_route, block_request. cbv zeta.
  destruct (is_http (url route)); cbn [negb];
  repeat match goal with
         | |- context [if ?b then _ else _] => destruct b
         | |- context [match ?o with Some _ => _ | None => _ end] =>
             destruct o as [?|]
         | |- context [let '(_, _) := ?p in _] => destruct p
         end;
    cbn [fst snd length app checked blocked redirected _network_matcher
         _requests_checked _requests_blocked _requests_redirected];
    repeat split;
    try (intros Hok; try discriminate Hok; split);
    (lia || discriminate || reflexivity).
Qed.

End Counters.

(** X14. Over any run of requests the handler never touches the filters;
    [requests_checked] grows by the number of http(s) requests; the other
    two counters never fall and neither grows by more than that number;
    every request gets at least one call on its route; and when no
    fulfilment fails every request gets exactly one call and
    [requests_blocked] and [requests_redirected] together grow by no more
    than [requests_checked]. *)
Theorem handle_routes_counters
    (urlparse_netloc : string → option string)
    (re_search_raw : string → string → option bool)
    (e : Engine.AdblockEngine) (routes : list Engine.Route) :
  let after :=
    Engine.handle_routes urlparse_netloc re_search_raw e routes in
  let e' := after.1 in
  let n :=
    length (List.filter (fun r => Engine.is_http (Engine.url r)) routes) in
  Engine._network_matcher e' = Engine._network_matcher e
  ∧ Engine._requests_checked e' = Engine._requests_checked e + n
  ∧ Engine._requests_blocked e ≤ Engine._requests_blocked e'
    ≤ Engine._requests_blocked e + n
  ∧ Engine._requests_redirected e ≤ Engine._requests_redirected e'
    ≤ Engine._requests_redirected e + n
  ∧ length after.2 = length routes
  ∧ Forall (fun calls => calls ≠ []) after.2
  ∧ (Forall (fun r => Engine.fulfill_succeeds r = true) routes →
     Engine._requests_blocked e' + Engine._requests_redirected e'
     ≤ Engine._requests_blocked e + Engine._requests_redirected e + n
     ∧ Forall (fun calls => length calls = 1) after.2).
Proof.
  revert e. induction routes as [|route routes IH]; intros e.
  - simpl. repeat split; (lia || done || constructor).
  - pose proof (handle_route_step urlparse_netloc re_search_raw e route)
      as Hstep.
    cbn [Engine.handle_routes].
    destruct (Engine._handle_route urlparse_netloc re_search_raw e route)
      as [e1 calls] eqn:E1.
    specialize (IH e1).
    destruct (Engine.handle_routes urlparse_netloc re_search_raw e1 routes)
      as [e2 more] eqn:E2.
    cbn [fst snd] in *. cbn [List.filter].
    destruct Hstep as (Hm & Hc & Hb & Hr & Hne & Hok).
    destruct IH as (Hm' & Hc' & Hb' & Hr' & Hlen & Hall & Hok').
    assert (length
              (if Engine.is_http (Engine.url route)
               then route :: List.filter
                               (λ r, Engine.is_http (Engine.url r)) routes
               else List.filter (λ r, Engine.is_http (Engine.url r)) routes)
            = (if Engine.is_http (Engine.url route) then 1 else 0)
              + length (List.filter
                          (λ r, Engine.is_http (Engine.url r)) routes))
      as -> by (by destruct (Engine.is_http (Engine.url route))).
    split; [congruence|]. split; [lia|]. split; [lia|]. split; [lia|].
    split; [simpl; lia|]. split; [by constructor|].
    intros [Hf Hfs]%Forall_cons.
    destruct (Hok Hf) as [Hsum Hone]. destruct (Hok' Hfs) as [Hsum' Hones].
    split; [lia|by constructor].
Qed.
